(** * Simplex: the controller of the main dialog

  A shallow embedding of [scripts/SimplexUI/simplexInterfaceDialog.py]:
  the event handlers of [SimplexDialog] as functions on an explicit dialog
  state, in a small state-and-exception monad.  Calls into the host
  application (the DCC), message boxes and emitted Qt signals are recorded
  in a log carried by the state; what the user or the host answers (typed
  names, keyboard modifiers, the Cancel button of a progress dialog, the
  scene selection) is an argument of the handler. *)

From Stdlib Require Import ZArith Ascii String Floats.
From stdpp Require Import gmap strings sorting functions.
From stdpp Require Import list.

Local Open Scope string_scope.
Local Open Scope list_scope.

(** ** Python strings *)

Module PyStr.

(** [s.startswith(p)] *)
Fixpoint startswith (s p : string) : bool :=
  match p, s with
  | EmptyString, _ => true
  | String a p', String b s' => Ascii.eqb a b && startswith s' p'
  | String _ _, EmptyString => false
  end.

(** [s.endswith(sfx)]: [s] is [sfx], or its tail ends with [sfx]. *)
Fixpoint endswith (s sfx : string) : bool :=
  String.eqb s sfx ||
  match s with
  | EmptyString => false
  | String _ t => endswith t sfx
  end.

(** [s.rfind(sep)] cut at the result: the text before the rightmost
    occurrence of a non-empty [sep], when there is one. *)
Fixpoint rpartition_head (sep s : string) : option string :=
  match s with
  | EmptyString => None
  | String c t =>
      match rpartition_head sep t with
      | Some p => Some (String c p)
      | None => if startswith s sep then Some EmptyString else None
      end
  end.

(** [s.rsplit(sep, 1)[0]] for a non-empty [sep]. *)
Definition rsplit1_head (sep s : string) : string :=
  default s (rpartition_head sep s).

(** [s[:n]] for [n >= 0] *)
Fixpoint take (n : nat) (s : string) : string :=
  match n, s with
  | S n', String c t => String c (take n' t)
  | _, _ => EmptyString
  end.

(** [s[n:]] for [n >= 0] *)
Fixpoint drop (n : nat) (s : string) : string :=
  match n, s with
  | S n', String _ t => drop n' t
  | _, _ => s
  end.

(** [s[:-n]] for [n > 0] *)
Definition drop_end (n : nat) (s : string) : string :=
  take (String.length s - n) s.

(** [s.rfind(c)] for a single character: index of its last occurrence. *)
Fixpoint rfind (c : ascii) (s : string) : option nat :=
  match s with
  | EmptyString => None
  | String a t =>
      match rfind c t with
      | Some i => Some (S i)
      | None => if Ascii.eqb a c then Some 0 else None
      end
  end.

Fixpoint all_char (c : ascii) (s : string) : bool :=
  match s with
  | EmptyString => true
  | String a t => Ascii.eqb a c && all_char c t
  end.

(** A text of ASCII characters only.  A text typed into a widget is held
  here character by character, a character above 127 standing for one
  that is not ASCII. *)
Fixpoint is_ascii (s : string) : bool :=
  match s with
  | EmptyString => true
  | String a t => (nat_of_ascii a <? 128)%nat && is_ascii t
  end.

End PyStr.

(** ** [os.path] (the POSIX flavour; on the entries of a directory listing,
  which hold no separator, the Windows flavour agrees) *)

Module OsPath.

Definition sep : ascii := "/"%char.
Definition extsep : ascii := "."%char.

(** [os.path.basename] *)
Definition basename (p : string) : string :=
  match PyStr.rfind sep p with
  | Some i => PyStr.drop (S i) p
  | None => p
  end.

(** [os.path.splitext]: the extension starts at the last dot of the last
    component, unless that component has only dots before it. *)
Definition splitext (p : string) : string * string :=
  match PyStr.rfind extsep p with
  | None => (p, EmptyString)
  | Some dotIndex =>
      let filenameIndex :=
        match PyStr.rfind sep p with Some i => S i | None => 0 end in
      if (filenameIndex <=? dotIndex)%nat then
        if PyStr.all_char extsep
             (PyStr.take (dotIndex - filenameIndex) (PyStr.drop filenameIndex p))
        then (p, EmptyString)
        else (PyStr.take dotIndex p, PyStr.drop dotIndex p)
      else (p, EmptyString)
  end.

(** [os.path.join(folder, name)] for a relative [name] *)
Definition join (folder name : string) : string :=
  if PyStr.endswith folder "/" || String.eqb folder ""
  then folder +:+ name
  else folder +:+ "/" +:+ name.

End OsPath.

(** ** The name check

  [NAME_CHECK = re.compile(r'[A-Za-z][\w.]*')], used through
  [NAME_CHECK.match], which anchors the pattern at the start of the
  string only. *)

Module Re.

Definition in_range (lo hi : nat) (c : ascii) : bool :=
  let n := nat_of_ascii c in (lo <=? n)%nat && (n <=? hi)%nat.

(** [[A-Za-z]] *)
Definition is_alpha (c : ascii) : bool :=
  in_range 65 90 c || in_range 97 122 c.

(** [[\w.]]: a letter, a digit, the underscore or the dot *)
Definition is_word_or_dot (c : ascii) : bool :=
  is_alpha c || in_range 48 57 c || Ascii.eqb c "_" || Ascii.eqb c ".".

(** The greedy star [[\w.]*]: the length of the longest matching prefix. *)
Fixpoint star_word_or_dot (s : string) : nat :=
  match s with
  | String c t => if is_word_or_dot c then S (star_word_or_dot t) else 0
  | EmptyString => 0
  end.

(** [NAME_CHECK.match(s)]: [None] when nothing matches at position 0, and
    otherwise the match object, here the end of the matched span. *)
Definition NAME_CHECK_match (s : string) : option nat :=
  match s with
  | String c t => if is_alpha c then Some (S (star_word_or_dot t)) else None
  | EmptyString => None
  end.

(** [m.group()] of such a match. *)
Definition matched (s : string) : option string :=
  (fun e => PyStr.take e s) <$> NAME_CHECK_match s.

End Re.

(** ** The rig items ([interfaceItems]), as far as the dialog reads them *)

(** The slider or combo that drives a progression, by name. *)
Definition Controller : Type := string.

(** The undo stack of a system is an object that systems hand on to each
  other: only its identity matters here. *)
Inductive Stack := StackRef (address : nat).

Record Shape := {
  shape_name : string;
  shape_isRest : bool }.

(** A progressive pair; [pp_controller] is [pair.prog.controller]. *)
Record ProgPair := {
  pp_shape : Shape;
  pp_controller : Controller }.

Record Progression := {
  prog_name : string;
  prog_pairs : list ProgPair }.

Record Slider := {
  slider_name : string;
  slider_value : float;
  slider_prog : Progression }.

Record ComboPair := {
  cp_slider : Slider;
  cp_value : float }.

Record Combo := {
  combo_name : string;
  combo_pairs : list ComboPair;
  combo_prog : Progression }.

Record Simplex := {
  sx_name : string;
  sx_groups : list string;
  sx_sliders : list Slider;
  sx_combos : list Combo;
  sx_progs : list Progression;
  sx_shapes : list Shape;
  sx_stack : Stack;
  sx_models : list string;
  sx_falloffModels : list string }.

(** What a row of a tree stands for. *)
Inductive Item :=
| ISimplex (s : string)
| IGroup (g : string)
| ISlider (s : Slider)
| ICombo (c : Combo)
| IProgPair (p : ProgPair).

#[global] Instance Shape_eq_dec : EqDecision Shape.
Proof. solve_decision. Defined.
#[global] Instance ProgPair_eq_dec : EqDecision ProgPair.
Proof. solve_decision. Defined.
#[global] Instance Stack_eq_dec : EqDecision Stack.
Proof. solve_decision. Defined.

(** ** Qt widgets, as far as the dialog drives them *)

Inductive TreeId := uiSliderTREE | uiComboTREE.
Inductive CheckId :=
  uiComboDependAllCHK | uiComboDependAnyCHK | uiComboDependOnlyCHK
| uiComboDependLockCHK.
Inductive ButtonId := uiSliderExitIsolateBTN | uiComboExitIsolateBTN.
Inductive GroupId := uiSliderButtonFRM | uiComboButtonFRM | uiConnectionGroupWID.
Inductive ActionId := uiLegacyJsonACT | uiLiveShapeConnectionACT.

#[global] Instance TreeId_eq_dec : EqDecision TreeId.
Proof. solve_decision. Defined.
#[global] Instance CheckId_eq_dec : EqDecision CheckId.
Proof. solve_decision. Defined.
#[global] Instance ButtonId_eq_dec : EqDecision ButtonId.
Proof. solve_decision. Defined.
#[global] Instance GroupId_eq_dec : EqDecision GroupId.
Proof. solve_decision. Defined.

(** The methods of the dialog that [setSystem] connects to signals. *)
Inductive Slot :=
  slot_unifySliderSelection | slot_populateComboRequirements
| slot_unifyComboSelection.

#[global] Instance Slot_eq_dec : EqDecision Slot.
Proof. solve_decision. Defined.

Inductive Signal :=
| simplexLoaded
| selectionChanged (t : TreeId)
| stateChanged (c : CheckId).

(** A [QItemSelectionModel]: the selected rows (column 0), whether its
  signals are blocked, and what [selectionChanged] is connected to. *)
Record SelectionModel := {
  sm_selection : list Item;
  sm_blocked : bool;
  sm_slots : list Slot }.

(** A filter proxy of [interfaceModel] ([SliderFilterModel],
  [ComboFilterModel]): the attributes the dialog reads and writes, and how
  often [invalidateFilter] ran. *)
Record FilterModel := {
  isolateList : list string;
  requires : list Slider;
  filterRequiresAll : bool;
  filterRequiresAny : bool;
  filterRequiresOnly : bool;
  invalidations : nat }.

(** The model of a tree: a filter proxy, or a bare [QStandardItemModel()].
  The bare model has none of the attributes and no [invalidateFilter]; it
  keeps the three flags [filterRequiresAll], [filterRequiresAny] and
  [filterRequiresOnly] once [enableComboRequirements] has stored them on
  it. *)
Inductive ItemModel :=
| QStandardItemModel (flags : option (bool * bool * bool))
| FilterProxy (m : FilterModel).

Record Tree := {
  tree_model : option ItemModel;
  tree_selectionModel : option SelectionModel }.

Record CheckBox := {
  cb_checked : bool;
  cb_blocked : bool }.

Inductive WidgetKind := QPushButton | QCheckBox | QComboBox | QLabel.

(** A child of a button frame. *)
Record Child := {
  child_kind : WidgetKind;
  child_enabled : bool }.

Record ComboBox := {
  cbox_items : list string;
  cbox_currentIndex : Z;
  cbox_blocked : bool }.

(** ** What the dialog does to the outside *)

Inductive Event :=
| Emit (s : Signal)
| Warning (message : string)
| ViewportUpdate (t : TreeId)
| InvalidateSourceFilter (t : TreeId)
| FalloffLoadSimplex
| IncrementRevision
| ConnectShape (c : Controller) (shape : Shape) (delete : bool)
| ExtractShape (c : Controller) (shape : Shape) (live : bool) (offset : Z)
| Progress (value : Z)
| ImportObj (path : string)
| DccConnectShape (shape : Shape) (mesh : string) (live delete : bool)
| DccConnectComboShape (c : Combo) (shape : Shape) (mesh : string)
    (live delete : bool).

(** ** The dialog *)

(** The widgets of each kind, one field per widget. *)
Record Trees := { the_sliderTree : Tree; the_comboTree : Tree }.
Record Checks := {
  the_allCheck : CheckBox; the_anyCheck : CheckBox;
  the_onlyCheck : CheckBox; the_lockCheck : CheckBox }.
Record Buttons := { the_sliderExit : bool; the_comboExit : bool }.
Record Groups := {
  the_sliderFrame : list Child; the_comboFrame : list Child;
  the_connectionGroup : list Child }.

Record Dialog := {
  simplex : option Simplex;
  _currentObject : option string;
  _sliderMul : float;
  trees : Trees;
  checks : Checks;
  buttons : Buttons;
  groups : Groups;
  action : ActionId -> bool;
  uiCurrentSystemCBOX : ComboBox;
  uiShapeNameTXT : string;
  next_address : nat;
  log : list Event }.

Definition tree (d : Dialog) (t : TreeId) : Tree :=
  match t with
  | uiSliderTREE => the_sliderTree (trees d)
  | uiComboTREE => the_comboTree (trees d)
  end.

Definition check (d : Dialog) (c : CheckId) : CheckBox :=
  match c with
  | uiComboDependAllCHK => the_allCheck (checks d)
  | uiComboDependAnyCHK => the_anyCheck (checks d)
  | uiComboDependOnlyCHK => the_onlyCheck (checks d)
  | uiComboDependLockCHK => the_lockCheck (checks d)
  end.


(** [par.children()] *)
Definition children (d : Dialog) (g : GroupId) : list Child :=
  match g with
  | uiSliderButtonFRM => the_sliderFrame (groups d)
  | uiComboButtonFRM => the_comboFrame (groups d)
  | uiConnectionGroupWID => the_connectionGroup (groups d)
  end.

Definition set_simplex (v : option Simplex) (d : Dialog) : Dialog :=
  {| simplex := v; _currentObject := _currentObject d;
     _sliderMul := _sliderMul d; trees := trees d; checks := checks d;
     buttons := buttons d; groups := groups d; action := action d;
     uiCurrentSystemCBOX := uiCurrentSystemCBOX d;
     uiShapeNameTXT := uiShapeNameTXT d; next_address := next_address d;
     log := log d |}.

Definition set_tree (t : TreeId) (v : Tree) (d : Dialog) : Dialog :=
  {| simplex := simplex d; _currentObject := _currentObject d;
     _sliderMul := _sliderMul d;
     trees :=
       match t with
       | uiSliderTREE =>
           {| the_sliderTree := v; the_comboTree := the_comboTree (trees d) |}
       | uiComboTREE =>
           {| the_sliderTree := the_sliderTree (trees d); the_comboTree := v |}
       end;
     checks := checks d; buttons := buttons d; groups := groups d;
     action := action d; uiCurrentSystemCBOX := uiCurrentSystemCBOX d;
     uiShapeNameTXT := uiShapeNameTXT d; next_address := next_address d;
     log := log d |}.

Definition set_check (c : CheckId) (v : CheckBox) (d : Dialog) : Dialog :=
  {| simplex := simplex d; _currentObject := _currentObject d;
     _sliderMul := _sliderMul d; trees := trees d;
     checks :=
       match c with
       | uiComboDependAllCHK =>
           {| the_allCheck := v; the_anyCheck := the_anyCheck (checks d);
              the_onlyCheck := the_onlyCheck (checks d);
              the_lockCheck := the_lockCheck (checks d) |}
       | uiComboDependAnyCHK =>
           {| the_allCheck := the_allCheck (checks d); the_anyCheck := v;
              the_onlyCheck := the_onlyCheck (checks d);
              the_lockCheck := the_lockCheck (checks d) |}
       | uiComboDependOnlyCHK =>
           {| the_allCheck := the_allCheck (checks d);
              the_anyCheck := the_anyCheck (checks d); the_onlyCheck := v;
              the_lockCheck := the_lockCheck (checks d) |}
       | uiComboDependLockCHK =>
           {| the_allCheck := the_allCheck (checks d);
              the_anyCheck := the_anyCheck (checks d);
              the_onlyCheck := the_onlyCheck (checks d); the_lockCheck := v |}
       end;
     buttons := buttons d; groups := groups d; action := action d;
     uiCurrentSystemCBOX := uiCurrentSystemCBOX d;
     uiShapeNameTXT := uiShapeNameTXT d; next_address := next_address d;
     log := log d |}.


Definition set_children (g : GroupId) (v : list Child) (d : Dialog) : Dialog :=
  {| simplex := simplex d; _currentObject := _currentObject d;
     _sliderMul := _sliderMul d; trees := trees d; checks := checks d;
     buttons := buttons d;
     groups :=
       match g with
       | uiSliderButtonFRM =>
           {| the_sliderFrame := v; the_comboFrame := the_comboFrame (groups d);
              the_connectionGroup := the_connectionGroup (groups d) |}
       | uiComboButtonFRM =>
           {| the_sliderFrame := the_sliderFrame (groups d); the_comboFrame := v;
              the_connectionGroup := the_connectionGroup (groups d) |}
       | uiConnectionGroupWID =>
           {| the_sliderFrame := the_sliderFrame (groups d);
              the_comboFrame := the_comboFrame (groups d);
              the_connectionGroup := v |}
       end;
     action := action d; uiCurrentSystemCBOX := uiCurrentSystemCBOX d;
     uiShapeNameTXT := uiShapeNameTXT d; next_address := next_address d;
     log := log d |}.

Definition set_cbox (v : ComboBox) (d : Dialog) : Dialog :=
  {| simplex := simplex d; _currentObject := _currentObject d;
     _sliderMul := _sliderMul d; trees := trees d; checks := checks d;
     buttons := buttons d; groups := groups d; action := action d;
     uiCurrentSystemCBOX := v;
     uiShapeNameTXT := uiShapeNameTXT d; next_address := next_address d;
     log := log d |}.

Definition set_next_address (v : nat) (d : Dialog) : Dialog :=
  {| simplex := simplex d; _currentObject := _currentObject d;
     _sliderMul := _sliderMul d; trees := trees d; checks := checks d;
     buttons := buttons d; groups := groups d; action := action d;
     uiCurrentSystemCBOX := uiCurrentSystemCBOX d;
     uiShapeNameTXT := uiShapeNameTXT d; next_address := v;
     log := log d |}.

Definition set_log (v : list Event) (d : Dialog) : Dialog :=
  {| simplex := simplex d; _currentObject := _currentObject d;
     _sliderMul := _sliderMul d; trees := trees d; checks := checks d;
     buttons := buttons d; groups := groups d; action := action d;
     uiCurrentSystemCBOX := uiCurrentSystemCBOX d;
     uiShapeNameTXT := uiShapeNameTXT d; next_address := next_address d;
     log := v |}.

(** ** The monad of the handlers: dialog state, and Python exceptions *)

Inductive Exn := AttributeError | TypeError | KeyError | UnicodeEncodeError.

(** An exception leaves the state as it was when it was raised. *)
Inductive Res (A : Type) :=
| Ok (a : A) (d : Dialog)
| Raise (e : Exn) (d : Dialog).
Arguments Ok {A} a d.
Arguments Raise {A} e d.

Definition M (A : Type) : Type := Dialog -> Res A.

Definition ret {A} (a : A) : M A := fun d => Ok a d.
Definition bind {A B} (m : M A) (k : A -> M B) : M B :=
  fun d => match m d with
           | Ok a d' => k a d'
           | Raise e d' => Raise e d'
           end.
Definition raise {A} (e : Exn) : M A := fun d => Raise e d.
Definition get {A} (f : Dialog -> A) : M A := fun d => Ok (f d) d.
Definition modify (f : Dialog -> Dialog) : M unit := fun d => Ok tt (f d).
Definition emit (e : Event) : M unit := modify (fun d => set_log (log d ++ [e]) d).

(** [str(text)] of a text that comes from a Qt widget: Python 2 encodes it
  with the ASCII codec, which raises on any other character. *)
Definition str (text : string) : M string :=
  if PyStr.is_ascii text then ret text else raise UnicodeEncodeError.

Declare Scope dialog_scope.
Delimit Scope dialog_scope with dialog.
Notation "x <- m ;; k" := (bind m (fun x => k))
  (at level 100, m at next level, right associativity) : dialog_scope.
Notation "m ;;; k" := (bind m (fun _ => k))
  (at level 100, right associativity) : dialog_scope.
Local Open Scope dialog_scope.

(** The state a handler ends in, whether it returned or raised. *)
Definition final {A} (r : Res A) : Dialog :=
  match r with Ok _ d => d | Raise _ d => d end.

Definition returned {A} (r : Res A) : Prop :=
  match r with Ok _ _ => True | Raise _ _ => False end.

(** [for x in l: body(x)] *)
Fixpoint for_each {A} (l : list A) (body : A -> M unit) : M unit :=
  match l with
  | [] => ret tt
  | x :: l' => body x ;;; for_each l' body
  end.

(** ** The collaborators that are not part of this file

  [utils], [interfaceItems], [interfaceModel] and [interfaceModelTrees]
  are imported by the dialog; what it calls in them is an interface here. *)

Class Utils := {
  SortKey : Type;
  naturalSortKey : string -> SortKey;
  (** [<] on sort keys, which is all [list.sort] looks at *)
  key_lt : SortKey -> SortKey -> bool;
  makeUnique : list ProgPair -> list ProgPair;
  getNextName : string -> list string -> string }.

Class InterfaceItems := {
  (** [system == self.simplex] between two systems *)
  Simplex_eq : Simplex -> Simplex -> bool;
  setLegacy : bool -> Simplex -> Simplex;
  buildSystemFromMesh : option string -> string -> float -> Simplex;
  buildComboName : list Slider -> list float -> string;
  createCombo : string -> Simplex -> list Slider -> list float -> Combo * Simplex;
  (** [groupType] is [Slider] ([true]) or [Combo] ([false]) *)
  createGroup : string -> Simplex -> bool -> Simplex;
  createSlider : string -> Simplex -> option string -> Simplex;
  buildEmptySystem : option string -> string -> float -> Simplex;
  (** the assignment [pair.shape.name = newName], seen from the system *)
  renameShape : ProgPair -> string -> Simplex -> Simplex }.

Class InterfaceModel := {
  Index : Type;
  (** [coerceIndexToChildType(indexes, ProgPair)] *)
  coerceIndexToChildType_ProgPair : list Index -> list Index;
  (** [coerceIndexToParentType(indexes, Group)], and the group of the first
      index it gives, when it gives one *)
  firstParentGroup : list Index -> option string;
  (** [index.model().itemFromIndex(index)] of such a child index *)
  itemFromIndex : Index -> ProgPair;
  newSliderFilterModel : Simplex -> FilterModel;
  newComboFilterModel : Simplex -> FilterModel }.

(** The methods of [SliderTree] and [ComboTree]. *)
Class InterfaceModelTrees `{InterfaceModel} := {
  getSelectedIndexes : Tree -> list Index;
  isolateSelected : Tree -> Tree;
  exitIsolate : Tree -> Tree;
  setItemSelection : list Item -> Tree -> Tree }.

(** The order in which Python 2 walks a set or a dict. *)
Class PyOrder := {
  set_iter : gset string -> list string;
  dict_iteritems : forall V, gmap string V -> list (string * V);
  dict_keys_nat : forall V, gmap nat V -> list nat }.

(** ** Widget primitives *)

Inductive QObject :=
| SelectionModelOf (t : TreeId)
| CheckBoxOf (c : CheckId)
| CurrentSystemCBOX.

Definition selectionModel (t : TreeId) : M (option SelectionModel) :=
  get (fun d => tree_selectionModel (tree d t)).

Definition model (t : TreeId) : M (option ItemModel) :=
  get (fun d => tree_model (tree d t)).

Definition set_selectionModel (t : TreeId) (sm : option SelectionModel)
  (d : Dialog) : Dialog :=
  set_tree t {| tree_model := tree_model (tree d t);
                tree_selectionModel := sm |} d.

Definition set_model (t : TreeId) (m : option ItemModel) (d : Dialog) : Dialog :=
  set_tree t {| tree_model := m;
                tree_selectionModel := tree_selectionModel (tree d t) |} d.

(** [item.blockSignals(b)] *)
Definition blockSignals (item : QObject) (b : bool) : M unit :=
  match item with
  | SelectionModelOf t =>
      sm <- selectionModel t ;;
      match sm with
      | None => raise AttributeError
      | Some sm =>
          modify (set_selectionModel t
            (Some {| sm_selection := sm_selection sm; sm_blocked := b;
                     sm_slots := sm_slots sm |}))
      end
  | CheckBoxOf c =>
      modify (fun d => set_check c
        {| cb_checked := cb_checked (check d c); cb_blocked := b |} d)
  | CurrentSystemCBOX =>
      modify (fun d => set_cbox
        {| cbox_items := cbox_items (uiCurrentSystemCBOX d);
           cbox_currentIndex := cbox_currentIndex (uiCurrentSystemCBOX d);
           cbox_blocked := b |} d)
  end.

(** [try: body finally: cleanup] *)
Definition try_finally {A} (body : M A) (cleanup : M unit) : M A :=
  fun d => match body d with
           | Ok a d' => (cleanup ;;; ret a) d'
           | Raise e d' =>
               match cleanup d' with
               | Ok _ d'' => Raise e d''
               | Raise e' d'' => Raise e' d''
               end
           end.

(** [with signalsBlocked(item): body] *)
Definition signalsBlocked {A} (item : QObject) (body : M A) : M A :=
  blockSignals item true ;;;
  try_finally body (blockSignals item false).

(** [selModel.clearSelection()]: the signal goes out only when something
  was selected, and only when signals are not blocked. *)
Definition clearSelection (t : TreeId) : M unit :=
  sm <- selectionModel t ;;
  match sm with
  | None => raise AttributeError
  | Some sm =>
      modify (set_selectionModel t
        (Some {| sm_selection := []; sm_blocked := sm_blocked sm;
                 sm_slots := sm_slots sm |})) ;;;
      match sm_selection sm with
      | [] => ret tt
      | _ :: _ =>
          if sm_blocked sm then ret tt else emit (Emit (selectionChanged t))
      end
  end.

Definition isChecked (c : CheckId) : M bool :=
  get (fun d => cb_checked (check d c)).

(** [item.setChecked(v)] *)
Definition setChecked (c : CheckId) (v : bool) : M unit :=
  cb <- get (fun d => check d c) ;;
  if Bool.eqb (cb_checked cb) v then ret tt
  else
    modify (set_check c {| cb_checked := v; cb_blocked := cb_blocked cb |}) ;;;
    if cb_blocked cb then ret tt else emit (Emit (stateChanged c)).

(** [tree.setModel(m)]: the view gets a selection model of its own for the
  new model. *)
Definition setModel (t : TreeId) (m : ItemModel) : M unit :=
  modify (set_tree t
    {| tree_model := Some m;
       tree_selectionModel :=
         Some {| sm_selection := []; sm_blocked := false; sm_slots := [] |} |}).

(** [selModel.selectionChanged.connect(slot)] on the tree's selection model *)
Definition connect (t : TreeId) (s : Slot) : M unit :=
  sm <- selectionModel t ;;
  match sm with
  | None => raise AttributeError
  | Some sm =>
      modify (set_selectionModel t
        (Some {| sm_selection := sm_selection sm; sm_blocked := sm_blocked sm;
                 sm_slots := sm_slots sm ++ [s] |}))
  end.

Fixpoint remove_first (s : Slot) (l : list Slot) : option (list Slot) :=
  match l with
  | [] => None
  | x :: l' =>
      if decide (x = s) then Some l'
      else cons x <$> remove_first s l'
  end.

(** [selModel.selectionChanged.disconnect(slot)]: an error when the slot is
  not connected. *)
Definition disconnect (t : TreeId) (s : Slot) : M unit :=
  sm <- selectionModel t ;;
  match sm with
  | None => raise AttributeError
  | Some sm =>
      match remove_first s (sm_slots sm) with
      | None => raise TypeError
      | Some slots =>
          modify (set_selectionModel t
            (Some {| sm_selection := sm_selection sm;
                     sm_blocked := sm_blocked sm; sm_slots := slots |}))
      end
  end.

(** [Stack()] *)
Definition new_Stack : M Stack :=
  a <- get next_address ;;
  modify (set_next_address (S a)) ;;;
  ret (StackRef a).

(** ** The handlers *)

Definition ShiftModifier : Z := 0x02000000%Z.
Definition ControlModifier : Z := 0x04000000%Z.

(** [tree.getSelectedItems(Slider)].  The method is the tree's; it is taken
  to do what the dialog's own [getSelectedItems(tree, typ)] does: the items
  of the selected rows that are of the type. *)
Definition getSelectedItems (t : TreeId) : M (list Item) :=
  sm <- selectionModel t ;;
  ret (match sm with Some sm => sm_selection sm | None => [] end).

Definition sliders_of (items : list Item) : list Slider :=
  omap (fun i => match i with ISlider s => Some s | _ => None end) items.

Definition combos_of (items : list Item) : list Combo :=
  omap (fun i => match i with ICombo c => Some c | _ => None end) items.

Definition progPairs_of (items : list Item) : list ProgPair :=
  omap (fun i => match i with IProgPair p => Some p | _ => None end) items.

(** [isinstance(child, (QPushButton, QCheckBox, QComboBox))] *)
Definition is_control (k : WidgetKind) : bool :=
  match k with
  | QPushButton | QCheckBox | QComboBox => true
  | QLabel => false
  end.

(** [_setObjectsEnabled(par, value)] *)
Definition _setObjectsEnabled (par : GroupId) (value : bool) : M unit :=
  modify (fun d => set_children par
    (map (fun child =>
            if is_control (child_kind child)
            then {| child_kind := child_kind child; child_enabled := value |}
            else child)
         (children d par)) d).

Definition setShapeGroupEnabled (value : bool) : M unit :=
  _setObjectsEnabled uiSliderButtonFRM value.
Definition setComboGroupEnabled (value : bool) : M unit :=
  _setObjectsEnabled uiComboButtonFRM value.
Definition setConnectionGroupEnabled (value : bool) : M unit :=
  _setObjectsEnabled uiConnectionGroupWID value.

(** [mods] is [QApplication.keyboardModifiers()]. *)
Definition unifySliderSelection (mods : Z) : M unit :=
  if (Z.land mods (Z.lor ControlModifier ShiftModifier) =? 0)%Z then
    comboSelModel <- selectionModel uiComboTREE ;;
    match comboSelModel with
    | None => ret tt
    | Some _ =>
        signalsBlocked (SelectionModelOf uiComboTREE)
          (clearSelection uiComboTREE) ;;;
        emit (ViewportUpdate uiComboTREE)
    end
  else ret tt.

Definition unifyComboSelection (mods : Z) : M unit :=
  if (Z.land mods (Z.lor ControlModifier ShiftModifier) =? 0)%Z then
    sliderSelModel <- selectionModel uiSliderTREE ;;
    match sliderSelModel with
    | None => ret tt
    | Some _ =>
        signalsBlocked (SelectionModelOf uiSliderTREE)
          (clearSelection uiSliderTREE) ;;;
        emit (ViewportUpdate uiSliderTREE)
    end
  else ret tt.

(** [comboModel.invalidateFilter()] and the three assignments before it *)
Definition enableComboRequirements : M unit :=
  comboModel <- model uiComboTREE ;;
  match comboModel with
  | None => ret tt
  | Some (QStandardItemModel _) =>
      all <- isChecked uiComboDependAllCHK ;;
      any <- isChecked uiComboDependAnyCHK ;;
      only <- isChecked uiComboDependOnlyCHK ;;
      modify (set_model uiComboTREE
                (Some (QStandardItemModel (Some (all, any, only))))) ;;;
      raise AttributeError
  | Some (FilterProxy m) =>
      all <- isChecked uiComboDependAllCHK ;;
      any <- isChecked uiComboDependAnyCHK ;;
      only <- isChecked uiComboDependOnlyCHK ;;
      modify (set_model uiComboTREE (Some (FilterProxy
        {| isolateList := isolateList m; requires := requires m;
           filterRequiresAll := all; filterRequiresAny := any;
           filterRequiresOnly := only;
           invalidations := S (invalidations m) |})))
  end.

Definition _setComboRequirements (skip : CheckId) : M unit :=
  let items :=
    [uiComboDependAnyCHK; uiComboDependAllCHK; uiComboDependOnlyCHK] in
  for_each items (fun item =>
    if decide (item = skip) then ret tt
    else
      c <- isChecked item ;;
      if c then signalsBlocked (CheckBoxOf item) (setChecked item false)
      else ret tt) ;;;
  enableComboRequirements.

Definition setAllComboRequirement : M unit :=
  _setComboRequirements uiComboDependAllCHK.
Definition setAnyComboRequirement : M unit :=
  _setComboRequirements uiComboDependAnyCHK.
Definition setOnlyComboRequirement : M unit :=
  _setComboRequirements uiComboDependOnlyCHK.

Definition populateComboRequirements : M unit :=
  items <- getSelectedItems uiSliderTREE ;;
  let items := sliders_of items in
  comboModel <- model uiComboTREE ;;
  locked <- isChecked uiComboDependLockCHK ;;
  match comboModel with
  | None | Some (QStandardItemModel None) => raise AttributeError
  | Some (QStandardItemModel (Some (all, any, only))) =>
      if all || any || only then raise AttributeError else ret tt
  | Some (FilterProxy m) =>
      let m1 :=
        if negb locked then
          {| isolateList := isolateList m; requires := items;
             filterRequiresAll := filterRequiresAll m;
             filterRequiresAny := filterRequiresAny m;
             filterRequiresOnly := filterRequiresOnly m;
             invalidations := invalidations m |}
        else m in
      let m2 :=
        if filterRequiresAll m1 || filterRequiresAny m1 || filterRequiresOnly m1
        then {| isolateList := isolateList m1; requires := requires m1;
                filterRequiresAll := filterRequiresAll m1;
                filterRequiresAny := filterRequiresAny m1;
                filterRequiresOnly := filterRequiresOnly m1;
                invalidations := S (invalidations m1) |}
        else m1 in
      modify (set_model uiComboTREE (Some (FilterProxy m2)))
  end.

Definition setLockComboRequirement : M unit :=
  comboModel <- model uiComboTREE ;;
  match comboModel with
  | None => ret tt
  | Some _ => populateComboRequirements
  end.

(** *** Isolation *)

Definition isSliderIsolate : M bool :=
  m <- model uiSliderTREE ;;
  match m with
  | Some (FilterProxy m) =>
      ret (match isolateList m with [] => false | _ :: _ => true end)
  | Some (QStandardItemModel _) => raise AttributeError
  | None => ret false
  end.

Definition isComboIsolate : M bool :=
  m <- model uiComboTREE ;;
  match m with
  | Some (FilterProxy m) =>
      ret (match isolateList m with [] => false | _ :: _ => true end)
  | Some (QStandardItemModel _) => raise AttributeError
  | None => ret false
  end.

Section Isolation.
Context `{InterfaceModelTrees}.





End Isolation.

(** *** Loading a system *)

Section SystemHandlers.
Context `{Utils} `{InterfaceItems} `{InterfaceModelTrees}.

(** [system == self.simplex]: [None] equals [None] only, and two systems
  are compared by their own [==]. *)
Definition system_eq (a b : option Simplex) : bool :=
  match a, b with
  | None, None => true
  | Some x, Some y => Simplex_eq x y
  | _, _ => false
  end.

Definition setSimplexLegacy : M unit :=
  sx <- get simplex ;;
  match sx with
  | Some sx =>
      legacy <- get (fun d => action d uiLegacyJsonACT) ;;
      modify (set_simplex (Some (setLegacy legacy sx))) ;;;
      emit IncrementRevision
  | None => ret tt
  end.

Definition setSystem (system : option Simplex) : M unit :=
  current <- get simplex ;;
  if system_eq system current then ret tt
  else
    oldStack <-
      match current with
      | Some old =>
          disconnect uiSliderTREE slot_unifySliderSelection ;;;
          disconnect uiSliderTREE slot_populateComboRequirements ;;;
          disconnect uiComboTREE slot_unifyComboSelection ;;;
          ret (sx_stack old)
      | None => new_Stack
      end ;;
    match system with
    | None =>
        setModel uiSliderTREE (QStandardItemModel None) ;;;
        setModel uiComboTREE (QStandardItemModel None) ;;;
        modify (set_simplex None) ;;;
        setShapeGroupEnabled false ;;;
        setComboGroupEnabled false ;;;
        setConnectionGroupEnabled false ;;;
        emit FalloffLoadSimplex ;;;
        emit (Emit simplexLoaded)
    | Some system =>
        let system :=
          {| sx_name := sx_name system; sx_groups := sx_groups system;
             sx_sliders := sx_sliders system;
             sx_combos := sx_combos system; sx_progs := sx_progs system;
             sx_shapes := sx_shapes system; sx_stack := oldStack;
             sx_models := []; sx_falloffModels := [] |} in
        modify (set_simplex (Some system)) ;;;
        setModel uiSliderTREE (FilterProxy (newSliderFilterModel system)) ;;;
        connect uiSliderTREE slot_unifySliderSelection ;;;
        connect uiSliderTREE slot_populateComboRequirements ;;;
        setModel uiComboTREE (FilterProxy (newComboFilterModel system)) ;;;
        connect uiComboTREE slot_unifyComboSelection ;;;
        emit FalloffLoadSimplex ;;;
        enableComboRequirements ;;;
        setShapeGroupEnabled true ;;;
        setComboGroupEnabled true ;;;
        setConnectionGroupEnabled true ;;;
        setSimplexLegacy ;;;
        emit (Emit simplexLoaded)
    end.

(** [currentSystemChanged(idx)]; the progress dialog it opens while the
  system is built from the mesh leaves no trace. *)
Definition currentSystemChanged (idx : Z) : M unit :=
  if (idx =? -1)%Z then setSystem None
  else
    cbox <- get uiCurrentSystemCBOX ;;
    let name :=
      default "" (cbox_items cbox !! Z.to_nat (cbox_currentIndex cbox)) in
    if String.eqb name "" then setSystem None
    else
      sx <- get simplex ;;
      if match sx with
         | Some sx => String.eqb (sx_name sx) name
         | None => false
         end
      then ret tt
      else
        obj <- get _currentObject ;;
        mul <- get _sliderMul ;;
        setSystem (Some (buildSystemFromMesh obj name mul)).

(** *** Creating and naming

  [newName] and [good] are what [QInputDialog.getText] gives back. *)





(** [uiCurrentSystemCBOX.addItem(text)] *)
Definition addItem (text : string) : M unit :=
  modify (fun d =>
    let cbox := uiCurrentSystemCBOX d in
    set_cbox {| cbox_items := cbox_items cbox ++ [text];
                cbox_currentIndex :=
                  match cbox_items cbox with
                  | [] => 0
                  | _ :: _ => cbox_currentIndex cbox
                  end;
                cbox_blocked := cbox_blocked cbox |} d).

(** [uiCurrentSystemCBOX.setCurrentIndex(uiCurrentSystemCBOX.count()-1)] *)
Definition setCurrentIndex_last : M unit :=
  modify (fun d =>
    let cbox := uiCurrentSystemCBOX d in
    set_cbox {| cbox_items := cbox_items cbox;
                cbox_currentIndex := Z.of_nat (length (cbox_items cbox)) - 1;
                cbox_blocked := cbox_blocked cbox |} d).

(** [uiCurrentSystemCBOX.setItemText(idx, text)] *)
Definition setItemText (idx : Z) (text : string) : M unit :=
  modify (fun d =>
    let cbox := uiCurrentSystemCBOX d in
    set_cbox {| cbox_items :=
                  if (idx <? 0)%Z then cbox_items cbox
                  else <[Z.to_nat idx := text]> (cbox_items cbox);
                cbox_currentIndex := cbox_currentIndex cbox;
                cbox_blocked := cbox_blocked cbox |} d).

Definition newSystem (newName : string) (good : bool) : M unit :=
  obj <- get _currentObject ;;
  match obj with
  | None => emit (Warning "Must have a current object selection")
  | Some _ =>
      if negb good then ret tt
      else
        newName <- str newName ;;
        match Re.NAME_CHECK_match newName with
        | None =>
            emit (Warning "System name can only contain letters and numbers, and cannot start with a number")
        | Some _ =>
            mul <- get _sliderMul ;;
            let newSystem := buildEmptySystem obj newName mul in
            signalsBlocked CurrentSystemCBOX
              (addItem newName ;;;
               setCurrentIndex_last ;;;
               setSystem (Some newSystem))
        end
  end.

Definition renameSystem (nn : string) (good : bool) : M unit :=
  sx <- get simplex ;;
  match sx with
  | None => ret tt
  | Some sx =>
      if negb good then ret tt
      else
        match Re.NAME_CHECK_match nn with
        | None =>
            emit (Warning "System name can only contain letters and numbers, and cannot start with a number")
        | Some _ =>
            sysNames <- get (fun d => cbox_items (uiCurrentSystemCBOX d)) ;;
            let nn := getNextName nn sysNames in
            modify (set_simplex (Some
              {| sx_name := nn; sx_groups := sx_groups sx;
                 sx_sliders := sx_sliders sx;
                 sx_combos := sx_combos sx; sx_progs := sx_progs sx;
                 sx_shapes := sx_shapes sx; sx_stack := sx_stack sx;
                 sx_models := sx_models sx;
                 sx_falloffModels := sx_falloffModels sx |})) ;;;
            idx <- get (fun d => cbox_currentIndex (uiCurrentSystemCBOX d)) ;;
            setItemText idx nn ;;;
            currentSystemChanged idx
        end
  end.

Definition setShapeName : M unit :=
  items <- getSelectedItems uiSliderTREE ;;
  let progPairs := progPairs_of items in
  match progPairs with
  | [progPair] =>
      newName <- get uiShapeNameTXT ;;
      match Re.NAME_CHECK_match newName with
      | None =>
          emit (Warning "Slider name can only contain letters and numbers, and cannot start with a number")
      | Some _ =>
          sx <- get simplex ;;
          modify (set_simplex (renameShape progPair newName <$> sx)) ;;;
          emit (ViewportUpdate uiSliderTREE)
      end
  | _ => emit (Warning "You can set exactly one shape name at a time this way")
  end.

(** *** Combos *)

Definition newActiveCombo : M unit :=
  sx <- get simplex ;;
  match sx with
  | None => ret tt
  | Some sx =>
      let '(sliders, values) :=
        fold_left (fun '(sliders, values) s =>
                     if negb (PrimFloat.eqb (slider_value s) 0%float)
                     then (sliders ++ [s], values ++ [slider_value s])
                     else (sliders, values))
                  (sx_sliders sx) ([], []) in
      let name := buildComboName sliders values in
      let '(newCombo, sx') := createCombo name sx sliders values in
      modify (set_simplex (Some sx')) ;;;
      modify (fun d => set_tree uiComboTREE
        (setItemSelection [ICombo newCombo] (tree d uiComboTREE)) d)
  end.

End SystemHandlers.

(** ** Batch operations under a progress dialog *)

(** A [QProgressDialog] with automatic reset: the range, the value of its
  bar, and whether Cancel was pressed since the last reset. *)
Record ProgressDialog := {
  pd_minimum : Z;
  pd_maximum : Z;
  pd_value : Z;
  pd_labelText : string;
  pd_canceled : bool;
  pd_closed : bool }.

Module PD.

Definition with_value (v : Z) (canceled : bool) (p : ProgressDialog) : ProgressDialog :=
  {| pd_minimum := pd_minimum p; pd_maximum := pd_maximum p; pd_value := v;
     pd_labelText := pd_labelText p; pd_canceled := canceled;
     pd_closed := pd_closed p |}.

(** [reset()]: the bar goes back to one below the minimum. *)
Definition reset (p : ProgressDialog) : ProgressDialog :=
  with_value (pd_minimum p - 1) false p.

(** [setRange(minimum, maximum)] of the bar *)
Definition setRange (minimum maximum : Z) (p : ProgressDialog) : ProgressDialog :=
  let p' := {| pd_minimum := minimum; pd_maximum := Z.max minimum maximum;
               pd_value := pd_value p; pd_labelText := pd_labelText p;
               pd_canceled := pd_canceled p; pd_closed := pd_closed p |} in
  if (pd_value p <? minimum - 1)%Z || (Z.max minimum maximum <? pd_value p)%Z
  then with_value (minimum - 1) (pd_canceled p) p'
  else p'.

(** [QProgressDialog(label, "Cancel", minimum, maximum, self)]: a new bar
  stands at -1. *)
Definition new (label : string) (minimum maximum : Z) : ProgressDialog :=
  setRange minimum maximum
    {| pd_minimum := 0; pd_maximum := 100; pd_value := -1;
       pd_labelText := label; pd_canceled := false; pd_closed := false |}.

Definition setMaximum (maximum : Z) (p : ProgressDialog) : ProgressDialog :=
  setRange (pd_minimum p) maximum p.

(** [setValue(progress)]: the bar takes a value inside its range, and the
  dialog resets when the maximum is reached. *)
Definition setValue (progress : Z) (p : ProgressDialog) : ProgressDialog :=
  if (progress =? pd_value p)%Z then p
  else
    let p' :=
      if ((pd_maximum p <? progress)%Z || (progress <? pd_minimum p)%Z)
         && negb ((pd_maximum p =? 0)%Z && (pd_minimum p =? 0)%Z)
      then p
      else with_value progress (pd_canceled p) p in
    if (progress =? pd_maximum p)%Z then reset p' else p'.

Definition setLabelText (text : string) (p : ProgressDialog) : ProgressDialog :=
  {| pd_minimum := pd_minimum p; pd_maximum := pd_maximum p;
     pd_value := pd_value p; pd_labelText := text;
     pd_canceled := pd_canceled p; pd_closed := pd_closed p |}.

(** [QApplication.processEvents()], during which the user may press
  Cancel: the dialog resets and remembers the cancellation. *)
Definition processEvents (cancel : bool) (p : ProgressDialog) : ProgressDialog :=
  if cancel then with_value (pd_minimum p - 1) true p else p.

Definition wasCanceled (p : ProgressDialog) : bool := pd_canceled p.

Definition close (p : ProgressDialog) : ProgressDialog :=
  {| pd_minimum := pd_minimum p; pd_maximum := pd_maximum p;
     pd_value := pd_value p; pd_labelText := pd_labelText p;
     pd_canceled := pd_canceled p; pd_closed := true |}.

End PD.

(** What a loop under a progress dialog carries along: the dialog, and how
  often [processEvents] ran. *)
Record Bar := { bar_dialog : ProgressDialog; bar_polls : nat }.

(** The four lines that follow each step of a batch: advance the bar, name
  the shape, let the user act, and ask whether Cancel was pressed.  [user]
  tells at which calls of [processEvents] the user presses Cancel. *)
Definition advance (user : nat -> bool) (label : string) (b : Bar) : M (Bar * bool) :=
  let pBar := bar_dialog b in
  let pBar := PD.setValue (pd_value pBar + 1) pBar in
  emit (Progress (pd_value pBar)) ;;;
  let pBar := PD.setLabelText label pBar in
  let pBar := PD.processEvents (user (bar_polls b)) pBar in
  ret ({| bar_dialog := pBar; bar_polls := S (bar_polls b) |},
       PD.wasCanceled pBar).

(** [for x in xs: body], where the body says whether it returned from the
  method. *)
Fixpoint for_return {A S} (xs : list A) (body : A -> S -> M (S * bool)) (st : S)
  : M (S * bool) :=
  match xs with
  | [] => ret (st, false)
  | x :: xs' =>
      r <- body x st ;;
      if r.2 then ret r else for_return xs' body r.1
  end.

(** [l.sort(key=key)]: stable, and comparing keys with [<] only. *)
Fixpoint insert_sorted {A} (lt : A -> A -> bool) (x : A) (l : list A) : list A :=
  match l with
  | [] => [x]
  | y :: l' => if lt y x then y :: insert_sorted lt x l' else x :: l
  end.

Definition py_sort {A} (lt : A -> A -> bool) (l : list A) : list A :=
  foldr (insert_sorted lt) [] l.

Section Extraction.
Context `{Utils} `{InterfaceModel}.

(** The order [pairs.sort(key=lambda x: naturalSortKey(x.shape.name))]
  sorts by. *)
Definition by_shape_name (x y : ProgPair) : bool :=
  key_lt (naturalSortKey (shape_name (pp_shape x)))
         (naturalSortKey (shape_name (pp_shape y))).

(** The pairs that [shapeIndexExtract] works on, in its order. *)
Definition extraction_pairs (indexes : list Index) : list ProgPair :=
  let pairs := coerceIndexToChildType_ProgPair indexes in
  let pairs := map itemFromIndex pairs in
  let pairs :=
    makeUnique (List.filter (fun i => negb (shape_isRest (pp_shape i))) pairs) in
  py_sort by_shape_name pairs.

(** The loop state of [shapeIndexExtract]: the bar and [offset]. *)
Definition shapeIndexExtract_step (user : nat -> bool) (live : bool)
  (pair : ProgPair) (st : Bar * Z) : M ((Bar * Z) * bool) :=
  let '(bar, offset) := st in
  emit (ExtractShape (pp_controller pair) (pp_shape pair) live offset) ;;;
  let offset := (offset + 5)%Z in
  r <- advance user ("Extracting:" +:+ String "010" (shape_name (pp_shape pair))) bar ;;
  ret ((r.1, offset), r.2).

(** [shapeIndexExtract(indexes, live)]; the result is the progress dialog
  as the method leaves it. *)
Definition shapeIndexExtract (user : nat -> bool) (indexes : list Index)
  (live : option bool) : M ProgressDialog :=
  live <- match live with
          | Some live => ret live
          | None => get (fun d => action d uiLiveShapeConnectionACT)
          end ;;
  let pairs := extraction_pairs indexes in
  let pBar := PD.new "Extracting Shapes" 0 100 in
  let pBar := PD.setMaximum (Z.of_nat (length pairs)) pBar in
  r <- for_return pairs (shapeIndexExtract_step user live)
         ({| bar_dialog := pBar; bar_polls := 0 |}, 10%Z) ;;
  if r.2 then ret (bar_dialog r.1.1)
  else ret (PD.close (bar_dialog r.1.1)).

End Extraction.



(** [dict[key]] *)
Definition getitem {K V} `{Countable K} (dict : gmap K V) (key : K) : M V :=
  match dict !! key with
  | Some v => ret v
  | None => raise KeyError
  end.




Section Scene.
Context `{PyOrder}.


End Scene.

(** *** Importing a folder of .obj files *)

(** What drives a progression: a slider or a combo. *)
Inductive Master := MSlider (s : Slider) | MCombo (c : Combo).

Definition master_prog (m : Master) : Progression :=
  match m with
  | MSlider s => slider_prog s
  | MCombo c => combo_prog c
  end.

(** [{shape.name: shape for shape in self.simplex.shapes}] *)
Definition shapeDict_of (shapes : list Shape) : gmap string Shape :=
  fold_left (fun shapeDict shape => <[shape_name shape := shape]> shapeDict)
    shapes ∅.

(** [os.path.splitext(os.path.basename(path))[0]] *)
Definition stem (path : string) : string :=
  (OsPath.splitext (OsPath.basename path)).1.

(** The file to load for a shape name: the loop over [paths]. *)
Definition inPairs_of (shapeDict : gmap string Shape) (paths : list string)
  : gmap string string :=
  fold_left (fun inPairs path =>
    let shapeName := stem path in
    match shapeDict !! shapeName with
    | Some _ => <[shapeName := path]> inPairs
    | None =>
        let sfx := "_Extract" in
        if PyStr.endswith shapeName sfx then
          let shapeName := PyStr.drop_end (String.length sfx) shapeName in
          match shapeDict !! shapeName with
          | Some _ => <[shapeName := path]> inPairs
          | None => inPairs
          end
        else inPairs
    end) paths ∅.

(** The body of the loop over the pairs of a master. *)
Definition masters_step (shapeDict : gmap string Shape)
  (inPairs : gmap string string) (master : Master)
  (acc : gmap string Slider * gmap string Combo) (pp : ProgPair)
  : gmap string Slider * gmap string Combo :=
  match shapeDict !! shape_name (pp_shape pp) with
  | Some shape =>
      if bool_decide (is_Some (inPairs !! shape_name shape)) then
        match master with
        | MSlider s => (<[shape_name shape := s]> acc.1, acc.2)
        | MCombo c => (acc.1, <[shape_name shape := c]> acc.2)
        end
      else acc
  | None => acc
  end.

(** [sliderMasters, comboMasters]: the loop over the sliders, then the
  combos, and their pairs. *)
Definition masters_of (shapeDict : gmap string Shape)
  (inPairs : gmap string string) (sx : Simplex)
  : gmap string Slider * gmap string Combo :=
  fold_left (fun acc masters =>
    fold_left (fun acc master =>
      fold_left (masters_step shapeDict inPairs master)
        (prog_pairs (master_prog master)) acc) masters acc)
    [map MSlider (sx_sliders sx); map MCombo (sx_combos sx)] (∅, ∅).

(** [comboDepth.setdefault(depth, {})[k] = v] over the items of
  [comboMasters] *)
Definition comboDepth_of (items : list (string * Combo))
  : gmap nat (gmap string Combo) :=
  fold_left (fun comboDepth kv =>
    let depth := length (combo_pairs kv.2) in
    <[depth := <[kv.1 := kv.2]> (default ∅ (comboDepth !! depth))]> comboDepth)
    items ∅.

(** The body of the two loading loops: the bar first, and unless Cancel
  was pressed, the import of the file and the connection [connect] of its
  mesh to the shape. *)
Definition import_step {X} (user : nat -> bool) (folder : string)
  (shapeDict : gmap string Shape) (inPairs : gmap string string)
  (connect : X -> Shape -> string -> Event) (job : string * X) (bar : Bar)
  : M (Bar * bool) :=
  let shapeName := job.1 in
  r <- advance user ("Loading Obj :" +:+ String "010" shapeName) bar ;;
  if r.2 then ret r
  else
    path <- getitem inPairs shapeName ;;
    let mesh := OsPath.join folder path in
    emit (ImportObj mesh) ;;;
    shape <- getitem shapeDict shapeName ;;
    emit (connect job.2 shape mesh) ;;;
    ret (r.1, false).

(** [DCC.connectShape(shape, mesh=mesh, live=False, delete=True)] *)
Definition connect_slider_shape (_ : Slider) (shape : Shape) (mesh : string) : Event :=
  DccConnectShape shape mesh false true.

(** [DCC.connectComboShape(combo, shape, mesh=mesh, live=False, delete=True)] *)
Definition connect_combo_shape (combo : Combo) (shape : Shape) (mesh : string) : Event :=
  DccConnectComboShape combo shape mesh false true.

Section ImportObj.
Context `{PyOrder}.

(** [importObjFolder(folder)]; [isdir] is [os.path.isdir(folder)] and
  [listing] is [os.listdir(folder)].  The result is the progress dialog as
  the method leaves it, when it got as far as making one. *)
Definition importObjFolder (user : nat -> bool) (isdir : bool)
  (listing : list string) (folder : string) : M (option ProgressDialog) :=
  if negb isdir then
    emit (Warning "Folder does not exist") ;;; ret None
  else
    let paths := List.filter (fun i => PyStr.endswith i ".obj") listing in
    match paths with
    | [] => emit (Warning "Folder does not contain any .obj files") ;;; ret None
    | _ :: _ =>
        sx <- get simplex ;;
        match sx with
        | None => raise AttributeError
        | Some sx =>
            let shapeDict := shapeDict_of (sx_shapes sx) in
            let inPairs := inPairs_of shapeDict paths in
            let masters := masters_of shapeDict inPairs sx in
            let sliderMasters := masters.1 in
            let comboMasters := masters.2 in
            let comboDepth := comboDepth_of (dict_iteritems _ comboMasters) in
            let pBar :=
              PD.new "Loading from Mesh" 0
                (Z.of_nat (size comboMasters + size sliderMasters)) in
            r <- for_return (dict_iteritems _ sliderMasters)
                   (import_step user folder shapeDict inPairs connect_slider_shape)
                   {| bar_dialog := pBar; bar_polls := 0 |} ;;
            if r.2 then ret (Some (bar_dialog r.1))
            else
              r <- for_return (py_sort Nat.ltb (dict_keys_nat _ comboDepth))
                     (fun depth bar =>
                        group <- getitem comboDepth depth ;;
                        for_return (dict_iteritems _ group)
                          (import_step user folder shapeDict inPairs
                             connect_combo_shape) bar)
                     r.1 ;;
              if r.2 then ret (Some (bar_dialog r.1))
              else ret (Some (PD.close (bar_dialog r.1)))
        end
    end.

End ImportObj.



(** A shape to load, with what drives it. *)
Inductive Job :=
| SliderJob (shapeName : string) (slider : Slider)
| ComboJob (shapeName : string) (combo : Combo).

Definition job_name (j : Job) : string :=
  match j with SliderJob n _ | ComboJob n _ => n end.

(** The depth of a combo: how many sliders it pairs. *)
Definition depth (c : Combo) : nat := length (combo_pairs c).

(** What a loading step does for its job: the import of the file found
  for the shape name, and the connection of the mesh to the shape of that
  name. *)
Definition import_events {X} (folder : string) (shapeDict : gmap string Shape)
  (inPairs : gmap string string) (connect : X -> Shape -> string -> Event)
  (job : string * X) : list Event :=
  match inPairs !! job.1, shapeDict !! job.1 with
  | Some path, Some shape =>
      [ImportObj (OsPath.join folder path);
       connect job.2 shape (OsPath.join folder path)]
  | _, _ => []
  end.













(** How many steps a batch of [n] runs: up to and including the first one
  after which the user pressed Cancel. *)
Fixpoint processed_from (user : nat -> bool) (polls n : nat) : nat :=
  match n with
  | 0 => 0
  | S n' => if user polls then 1 else S (processed_from user (S polls) n')
  end.


(** What is assumed of the collaborators of a batch: [<] on sort keys is a
  strict weak order, and [makeUnique] keeps one of each. *)
Definition strict_weak_order {K} (lt : K -> K -> bool) : Prop :=
  (forall a b, lt a b = true -> lt b a = false) /\
  (forall a b c, lt b a = false -> lt c b = false -> lt c a = false).



(** The user pressed Cancel during one of the first [n] polls, counted
  from [polls]. *)
Fixpoint canceled_from (user : nat -> bool) (polls n : nat) : bool :=
  match n with
  | 0 => false
  | S n' => user polls || canceled_from user (S polls) n'
  end.


(** ** Further handlers *)

(** [tree.model().invalidateFilter()] *)
Definition invalidateFilter (t : TreeId) : M unit :=
  m <- model t ;;
  match m with
  | Some (FilterProxy m) =>
      modify (set_model t (Some (FilterProxy
        {| isolateList := isolateList m; requires := requires m;
           filterRequiresAll := filterRequiresAll m;
           filterRequiresAny := filterRequiresAny m;
           filterRequiresOnly := filterRequiresOnly m;
           invalidations := S (invalidations m) |})))
  | _ => raise AttributeError
  end.

(** [setItemExpansion] of [SliderTree] and [ComboTree] *)
Class TreeExpansion := {
  setItemExpansion : Tree -> Tree }.

(** [coerceIndexToRoots] of [interfaceModel], [index.model().itemFromIndex]
  on what it gives, [makeUnique] on items, and what [item.delete()] leaves of
  the system. *)
Class RootItems `{InterfaceModel} := {
  coerceIndexToRoots : list Index -> list Index;
  rootFromIndex : Index -> Item;
  makeUniqueItems : list Item -> list Item;
  delete : Item -> Simplex -> Simplex }.

(** [self.simplex.setSlidersWeights(sliders, weights)], seen from the
  system, and [==] between two sliders, which [in] asks. *)
Class SliderWeights := {
  setSlidersWeights : list Slider -> list float -> Simplex -> Simplex;
  Slider_eq : Slider -> Slider -> bool }.

Section Connection.
Context `{Utils} `{InterfaceItems} `{InterfaceModelTrees}.







Definition sliderShapeExtract (user : nat -> bool) : M ProgressDialog :=
  sliderIdxs <- get (fun d => getSelectedIndexes (tree d uiSliderTREE)) ;;
  shapeIndexExtract user sliderIdxs None.

Definition comboShapeExtract (user : nat -> bool) : M ProgressDialog :=
  comboIdxs <- get (fun d => getSelectedIndexes (tree d uiComboTREE)) ;;
  shapeIndexExtract user comboIdxs None.

Definition shapeExtract (user : nat -> bool) : M ProgressDialog :=
  sliderIdxs <- get (fun d => getSelectedIndexes (tree d uiSliderTREE)) ;;
  comboIdxs <- get (fun d => getSelectedIndexes (tree d uiComboTREE)) ;;
  shapeIndexExtract user (sliderIdxs ++ comboIdxs) None.

(** [newSelectedCombo()] *)
Definition newSelectedCombo : M unit :=
  sx <- get simplex ;;
  match sx with
  | None => ret tt
  | Some sx =>
      items <- getSelectedItems uiSliderTREE ;;
      let sliders := sliders_of items in
      let values := replicate (length sliders) 1%float in
      let name := buildComboName sliders values in
      let '(newCombo, sx') := createCombo name sx sliders values in
      modify (set_simplex (Some sx')) ;;;
      modify (fun d => set_tree uiComboTREE
        (setItemSelection [ICombo newCombo] (tree d uiComboTREE)) d)
  end.

(** [handleUndo()]; [data] is what the stack of the system holds for the
  revision of the DCC, [self.simplex.stack.getRevision(rev)]. *)
Definition handleUndo `{TreeExpansion} (data : option Simplex) : M unit :=
  sx <- get simplex ;;
  match sx with
  | None => raise AttributeError
  | Some _ =>
      match data with
      | Some data =>
          setSystem (Some data) ;;;
          modify (fun d => set_tree uiSliderTREE
                    (setItemExpansion (tree d uiSliderTREE)) d) ;;;
          modify (fun d => set_tree uiComboTREE
                    (setItemExpansion (tree d uiComboTREE)) d)
      | None => ret tt
      end
  end.

(** [sliderTreeDelete()] *)
Definition sliderTreeDelete `{!RootItems} : M unit :=
  idxs <- get (fun d => getSelectedIndexes (tree d uiSliderTREE)) ;;
  let roots := coerceIndexToRoots idxs in
  match roots with
  | [] => emit (Warning "Nothing Selected")
  | _ :: _ =>
      let roots := makeUniqueItems (map rootFromIndex roots) in
      r <- for_return roots
             (fun r _ =>
                match r with
                | ISimplex _ =>
                    emit (Warning "Cannot delete a simplex system this way (for now)") ;;;
                    ret (tt, true)
                | _ => ret (tt, false)
                end) tt ;;
      if r.2 then ret tt
      else
        for_each roots (fun r =>
          sx <- get simplex ;;
          modify (set_simplex (delete r <$> sx))) ;;;
        invalidateFilter uiSliderTREE
  end.

(** [comboTreeDelete()] *)
Definition comboTreeDelete `{!RootItems} : M unit :=
  idxs <- get (fun d => getSelectedIndexes (tree d uiComboTREE)) ;;
  let roots := coerceIndexToRoots idxs in
  let roots := makeUniqueItems (map rootFromIndex roots) in
  for_each roots (fun r =>
    sx <- get simplex ;;
    modify (set_simplex (delete r <$> sx))) ;;;
  invalidateFilter uiComboTREE.

End Connection.

Section Weights.
Context `{SliderWeights} `{InterfaceModelTrees}.

(** [x in l] on a list of sliders: [x == e] for one of its elements. *)
Definition slider_in (x : Slider) (l : list Slider) : bool :=
  existsb (Slider_eq x) l.

(** [zeroAllSliders()]; the repaint of the tree that ends it redraws the
  widget and leaves no trace. *)
Definition zeroAllSliders : M unit :=
  sx <- get simplex ;;
  match sx with
  | None => ret tt
  | Some sx =>
      let sliders := sx_sliders sx in
      let weights := replicate (length sliders) 0%float in
      modify (set_simplex (Some (setSlidersWeights sliders weights sx)))
  end.

(** [zeroSelectedSliders()] *)
Definition zeroSelectedSliders : M unit :=
  sx <- get simplex ;;
  match sx with
  | None => ret tt
  | Some sx =>
      items <- getSelectedItems uiSliderTREE ;;
      let items := sliders_of items in
      let values := replicate (length items) 0%float in
      modify (set_simplex (Some (setSlidersWeights items values sx)))
  end.

(** The two lists that the loops of [setSliderVals] fill. *)
Definition combo_weights (combos : list Combo) : list float * list Slider :=
  fold_left (fun acc combo =>
    fold_left (fun '(values, sliders) pair =>
                 if slider_in (cp_slider pair) sliders then (values, sliders)
                 else (values ++ [cp_value pair], sliders ++ [cp_slider pair]))
      (combo_pairs combo) acc) combos ([], []).

(** [setSliderVals()] *)
Definition setSliderVals : M unit :=
  sx <- get simplex ;;
  match sx with
  | None => ret tt
  | Some _ =>
      items <- getSelectedItems uiComboTREE ;;
      let combos := combos_of items in
      zeroAllSliders ;;;
      let '(values, sliders) := combo_weights combos in
      sx <- get simplex ;;
      match sx with
      | None => raise AttributeError
      | Some sx =>
          modify (set_simplex (Some (setSlidersWeights sliders values sx)))
      end
  end.

(** [selectSliders()] *)
Definition selectSliders : M unit :=
  items <- getSelectedItems uiComboTREE ;;
  let combos := combos_of items in
  let sliders :=
    fold_left (fun sliders combo =>
      fold_left (fun sliders pair => sliders ++ [cp_slider pair])
        (combo_pairs combo) sliders) combos [] in
  modify (fun d => set_tree uiSliderTREE
    (setItemSelection (map ISlider sliders) (tree d uiSliderTREE)) d).

End Weights.

(** *** The box of the shape name

  The dialog above holds the text of [uiShapeNameTXT]; the rest of the
  widget is passed to the handler and returned by it. *)

Record LineEdit := {
  le_enabled : bool;
  le_blocked : bool }.

Definition set_shapeNameTXT (v : string) (d : Dialog) : Dialog :=
  {| simplex := simplex d; _currentObject := _currentObject d;
     _sliderMul := _sliderMul d; trees := trees d; checks := checks d;
     buttons := buttons d; groups := groups d; action := action d;
     uiCurrentSystemCBOX := uiCurrentSystemCBOX d;
     uiShapeNameTXT := v; next_address := next_address d;
     log := log d |}.

(** [loadShapeName()].  The three branches go by [len(names)], and
  [names.pop()] of a set of one name gives that name. *)
Definition loadShapeName (box : LineEdit) : M LineEdit :=
  items <- getSelectedItems uiSliderTREE ;;
  let progPairs := progPairs_of items in
  let box := {| le_enabled := le_enabled box; le_blocked := true |} in
  let names : gset string :=
    list_to_set (map (fun pp => shape_name (pp_shape pp)) progPairs) in
  box <-
    match elements names with
    | [name] =>
        let box := {| le_enabled := true; le_blocked := le_blocked box |} in
        modify (set_shapeNameTXT name) ;;; ret box
    | [] =>
        let box := {| le_enabled := false; le_blocked := le_blocked box |} in
        modify (set_shapeNameTXT "None ...") ;;; ret box
    | _ :: _ :: _ =>
        let box := {| le_enabled := false; le_blocked := le_blocked box |} in
        modify (set_shapeNameTXT "Multi ...") ;;; ret box
    end ;;
  ret {| le_enabled := le_enabled box; le_blocked := false |}.

(** ** Observations on a dialog state *)

(** The rows selected in a tree: none when it has no selection model. *)
Definition selected (t : TreeId) (d : Dialog) : list Item :=
  match tree_selectionModel (tree d t) with
  | Some sm => sm_selection sm
  | None => []
  end.

(** Whether the signals of a tree's selection model are blocked. *)
Definition selection_blocked (t : TreeId) (d : Dialog) : bool :=
  match tree_selectionModel (tree d t) with
  | Some sm => sm_blocked sm
  | None => false
  end.

(** A keyboard modifier is part of [mods]. *)
Definition held (modifier mods : Z) : bool :=
  negb (Z.land mods modifier =? 0)%Z.

Definition is_emit (e : Event) : bool :=
  match e with Emit _ => true | _ => false end.

(** The signals in a log. *)
Definition signals (l : list Event) : list Signal :=
  omap (fun e => match e with Emit s => Some s | _ => None end) l.

(** What a tree looks like once the other tree's handler cleared it. *)
Definition cleared (t : TreeId) (d : Dialog) : Dialog :=
  match tree_selectionModel (tree d t) with
  | Some sm =>
      set_log (log d ++ [ViewportUpdate t])
        (set_selectionModel t
           (Some {| sm_selection := []; sm_blocked := false;
                    sm_slots := sm_slots sm |}) d)
  | None => d
  end.

Definition checked (d : Dialog) (c : CheckId) : bool := cb_checked (check d c).

(** The three boxes that choose how a combo must depend on the sliders. *)
Definition dependency_boxes : list CheckId :=
  [uiComboDependAllCHK; uiComboDependAnyCHK; uiComboDependOnlyCHK].

Definition checked_boxes (d : Dialog) : list CheckId :=
  List.filter (checked d) dependency_boxes.

(** The filter proxy [m] after [enableComboRequirements] read the boxes of
  [d]. *)
Definition requirements_enabled (d : Dialog) (m : FilterModel) : FilterModel :=
  {| isolateList := isolateList m; requires := requires m;
     filterRequiresAll := checked d uiComboDependAllCHK;
     filterRequiresAny := checked d uiComboDependAnyCHK;
     filterRequiresOnly := checked d uiComboDependOnlyCHK;
     invalidations := S (invalidations m) |}.

(** One of the three requirement flags of a filter proxy is set. *)
Definition filters_on_requirements (m : FilterModel) : bool :=
  filterRequiresAll m || filterRequiresAny m || filterRequiresOnly m.








(** The slots that [setSystem] connects are connected. *)
Definition connected (d : Dialog) : Prop :=
  (exists sm, tree_selectionModel (tree d uiSliderTREE) = Some sm /\
              slot_unifySliderSelection ∈ sm_slots sm /\
              slot_populateComboRequirements ∈ sm_slots sm) /\
  (exists sm, tree_selectionModel (tree d uiComboTREE) = Some sm /\
              slot_unifyComboSelection ∈ sm_slots sm).

(** The dialog is wired: with a system loaded, the slots are connected. *)
Definition wired (d : Dialog) : Prop :=
  simplex d <> None -> connected d.

(** The tree a view is given by [setModel]. *)
Definition fresh_tree (m : ItemModel) (slots : list Slot) : Tree :=
  {| tree_model := Some m;
     tree_selectionModel :=
       Some {| sm_selection := []; sm_blocked := false; sm_slots := slots |} |}.






(** The sliders of a list that are not at zero. *)
Definition active_sliders (l : list Slider) : list Slider :=
  List.filter (fun s => negb (PrimFloat.eqb (slider_value s) 0%float)) l.

(** Whether the signals of an object are blocked. *)
Definition blocked (item : QObject) (d : Dialog) : bool :=
  match item with
  | SelectionModelOf t => selection_blocked t d
  | CheckBoxOf c => cb_blocked (check d c)
  | CurrentSystemCBOX => cbox_blocked (uiCurrentSystemCBOX d)
  end.

(** The object is there: a tree has a selection model only once it has a
  model. *)
Definition present (item : QObject) (d : Dialog) : Prop :=
  match item with
  | SelectionModelOf t => is_Some (tree_selectionModel (tree d t))
  | _ => True
  end.

(** A child after [_setObjectsEnabled] went over it. *)
Definition with_enabled (value : bool) (child : Child) : Child :=
  if is_control (child_kind child)
  then {| child_kind := child_kind child; child_enabled := value |}
  else child.

(** A system as [setSystem] loads it: with the stack it is given, and no
  models yet. *)
Definition with_stack (stack : Stack) (system : Simplex) : Simplex :=
  {| sx_name := sx_name system; sx_groups := sx_groups system;
     sx_sliders := sx_sliders system; sx_combos := sx_combos system;
     sx_progs := sx_progs system; sx_shapes := sx_shapes system;
     sx_stack := stack; sx_models := []; sx_falloffModels := [] |}.

(** The stack that [setSystem] hands on: that of the loaded system, or a
  new one. *)
Definition handed_stack (d : Dialog) : Stack :=
  match simplex d with
  | Some old => sx_stack old
  | None => StackRef (next_address d)
  end.

(** With a system loaded, each tree shows a filter proxy, and each slot of
  [setSystem] is connected once. *)
Definition wired_once (d : Dialog) : Prop :=
  simplex d <> None ->
  (exists m sm,
     tree d uiSliderTREE =
       {| tree_model := Some (FilterProxy m); tree_selectionModel := Some sm |} /\
     sm_slots sm = [slot_unifySliderSelection; slot_populateComboRequirements]) /\
  (exists m sm,
     tree d uiComboTREE =
       {| tree_model := Some (FilterProxy m); tree_selectionModel := Some sm |} /\
     sm_slots sm = [slot_unifyComboSelection]).

(** A system under another name. *)
Definition renamed (name : string) (sx : Simplex) : Simplex :=
  {| sx_name := name; sx_groups := sx_groups sx;
     sx_sliders := sx_sliders sx; sx_combos := sx_combos sx;
     sx_progs := sx_progs sx; sx_shapes := sx_shapes sx;
     sx_stack := sx_stack sx; sx_models := sx_models sx;
     sx_falloffModels := sx_falloffModels sx |}.

(** The shape name that a file of the folder is taken for: its stem when a
  shape has that name, and otherwise its stem without [_Extract], when it
  ends so and a shape has that name. *)
Definition file_shape (shapeDict : gmap string Shape) (path : string)
  : option string :=
  let shapeName := stem path in
  if bool_decide (is_Some (shapeDict !! shapeName)) then Some shapeName
  else if PyStr.endswith shapeName "_Extract" then
    let shapeName := PyStr.drop_end (String.length "_Extract") shapeName in
    if bool_decide (is_Some (shapeDict !! shapeName)) then Some shapeName
    else None
  else None.

(** Two pairs whose shape names have sort keys that [<] does not tell
  apart. *)
Definition same_key `{Utils} (a b : ProgPair) : bool :=
  negb (by_shape_name a b) && negb (by_shape_name b a).

(** All pairs of the combos of a list, in order. *)
Definition combo_pairs_of (combos : list Combo) : list ComboPair :=
  combos ≫= combo_pairs.

(** The pairs that the loops of [setSliderVals] keep: each pair whose
  slider is not [in] the list of the sliders kept before it. *)
Definition kept_pairs `{SliderWeights} (pairs : list ComboPair) : list ComboPair :=
  fold_left (fun kept pair =>
               if slider_in (cp_slider pair) (cp_slider <$> kept) then kept
               else kept ++ [pair]) pairs [].

(** A system after [delete()] ran on the items of a list, in order. *)
Definition deleted `{RootItems} (items : list Item) (sx : Simplex) : Simplex :=
  fold_left (fun sx r => delete r sx) items sx.

(** A filter proxy after one more [invalidateFilter()]. *)
Definition invalidated (m : FilterModel) : FilterModel :=
  {| isolateList := isolateList m; requires := requires m;
     filterRequiresAll := filterRequiresAll m;
     filterRequiresAny := filterRequiresAny m;
     filterRequiresOnly := filterRequiresOnly m;
     invalidations := S (invalidations m) |}.

(** The row of the system itself. *)
Definition is_system (r : Item) : bool :=
  match r with ISimplex _ => true | _ => false end.

(** ** A small rig, for examples *)

Definition shape_rest : Shape := {| shape_name := "Rest"; shape_isRest := true |}.
Definition shape_jaw : Shape := {| shape_name := "jawOpen"; shape_isRest := false |}.
Definition shape_smile : Shape := {| shape_name := "smile"; shape_isRest := false |}.
Definition shape_both : Shape :=
  {| shape_name := "jawOpen_smile"; shape_isRest := false |}.

Definition pair_of (c : Controller) (sh : Shape) : ProgPair :=
  {| pp_shape := sh; pp_controller := c |}.

Definition prog_jaw : Progression :=
  {| prog_name := "jawOpen";
     prog_pairs := [pair_of "jawOpen" shape_rest; pair_of "jawOpen" shape_jaw] |}.
Definition prog_smile : Progression :=
  {| prog_name := "smile";
     prog_pairs := [pair_of "smile" shape_rest; pair_of "smile" shape_smile] |}.
Definition prog_both : Progression :=
  {| prog_name := "jawOpen_smile";
     prog_pairs :=
       [pair_of "jawOpen_smile" shape_rest; pair_of "jawOpen_smile" shape_both] |}.

Definition slider_jaw : Slider :=
  {| slider_name := "jawOpen"; slider_value := 1%float; slider_prog := prog_jaw |}.
Definition slider_smile : Slider :=
  {| slider_name := "smile"; slider_value := 0%float; slider_prog := prog_smile |}.

Definition combo_both : Combo :=
  {| combo_name := "jawOpen_smile";
     combo_pairs := [ {| cp_slider := slider_jaw; cp_value := 1%float |};
                      {| cp_slider := slider_smile; cp_value := 1%float |} ];
     combo_prog := prog_both |}.

Definition face (stack : nat) : Simplex :=
  {| sx_name := "Face";
     sx_groups := ["Mouth"];
     sx_sliders := [slider_jaw; slider_smile];
     sx_combos := [combo_both];
     sx_progs := [prog_jaw; prog_smile; prog_both];
     sx_shapes := [shape_rest; shape_jaw; shape_smile; shape_both];
     sx_stack := StackRef stack;
     sx_models := [];
     sx_falloffModels := [] |}.

Definition plain_filter : FilterModel :=
  {| isolateList := []; requires := []; filterRequiresAll := false;
     filterRequiresAny := false; filterRequiresOnly := false;
     invalidations := 0 |}.

Definition tree_with (slots : list Slot) (sel : list Item) : Tree :=
  {| tree_model := Some (FilterProxy plain_filter);
     tree_selectionModel :=
       Some {| sm_selection := sel; sm_blocked := false; sm_slots := slots |} |}.

Definition unchecked : CheckBox := {| cb_checked := false; cb_blocked := false |}.
Definition ticked : CheckBox := {| cb_checked := true; cb_blocked := false |}.

Definition frame : list Child :=
  [ {| child_kind := QPushButton; child_enabled := true |};
    {| child_kind := QLabel; child_enabled := true |};
    {| child_kind := QCheckBox; child_enabled := true |} ].

(** A dialog with the rig loaded, a slider and a combo selected, and the
  "All" and "Any" boxes both ticked. *)
Definition loaded_dialog : Dialog :=
  {| simplex := Some (face 0);
     _currentObject := Some "head";
     _sliderMul := 1%float;
     trees :=
       {| the_sliderTree :=
            tree_with [slot_unifySliderSelection; slot_populateComboRequirements]
              [ISlider slider_jaw; IProgPair (pair_of "jawOpen" shape_jaw)];
          the_comboTree :=
            tree_with [slot_unifyComboSelection] [ICombo combo_both] |};
     checks :=
       {| the_allCheck := ticked; the_anyCheck := ticked;
          the_onlyCheck := unchecked; the_lockCheck := unchecked |};
     buttons := {| the_sliderExit := false; the_comboExit := false |};
     groups :=
       {| the_sliderFrame := frame; the_comboFrame := frame;
          the_connectionGroup := frame |};
     action := fun _ => false;
     uiCurrentSystemCBOX :=
       {| cbox_items := ["Face"]; cbox_currentIndex := 0; cbox_blocked := false |};
     uiShapeNameTXT := "jawOpen";
     next_address := 1;
     log := [] |}.


(** The trees of the examples do not filter: isolating records the names of
  the selected sliders and combos. *)
Definition item_name (i : Item) : string :=
  match i with
  | ISimplex s => s
  | IGroup g => g
  | ISlider s => slider_name s
  | ICombo c => combo_name c
  | IProgPair p => shape_name (pp_shape p)
  end.

Definition with_isolateList (l : list string) (t : Tree) : Tree :=
  {| tree_model :=
       match tree_model t with
       | Some (FilterProxy m) =>
           Some (FilterProxy
             {| isolateList := l; requires := requires m;
                filterRequiresAll := filterRequiresAll m;
                filterRequiresAny := filterRequiresAny m;
                filterRequiresOnly := filterRequiresOnly m;
                invalidations := S (invalidations m) |})
       | other => other
       end;
     tree_selectionModel := tree_selectionModel t |}.

#[local] Instance example_model : InterfaceModel := {|
  Index := Item;
  coerceIndexToChildType_ProgPair idxs :=
    List.filter (fun i => match i with IProgPair _ => true | _ => false end) idxs;
  firstParentGroup idxs :=
    head (omap (fun i => match i with IGroup g => Some g | _ => None end) idxs);
  itemFromIndex i :=
    match i with IProgPair p => p | _ => pair_of "" shape_rest end;
  newSliderFilterModel _ := plain_filter;
  newComboFilterModel _ := plain_filter |}.

#[local] Instance example_trees : InterfaceModelTrees := {|
  getSelectedIndexes t :=
    match tree_selectionModel t with
    | Some sm => sm_selection sm
    | None => []
    end;
  isolateSelected t :=
    with_isolateList
      (match tree_selectionModel t with
       | Some sm => map item_name (sm_selection sm)
       | None => []
       end) t;
  exitIsolate t := with_isolateList [] t;
  setItemSelection items t :=
    {| tree_model := tree_model t;
       tree_selectionModel :=
         match tree_selectionModel t with
         | Some sm => Some {| sm_selection := items; sm_blocked := sm_blocked sm;
                              sm_slots := sm_slots sm |}
         | None => None
         end |} |}.

(** Collaborators for the examples: systems are told apart by name and
  stack, sort keys are lengths, and creation appends. *)
#[local] Instance example_utils : Utils := {|
  SortKey := nat;
  naturalSortKey := String.length;
  key_lt := Nat.ltb;
  makeUnique := remove_dups;
  getNextName n names := if bool_decide (n ∈ names) then n +:+ "1" else n |}.

Definition empty_system (name : string) : Simplex :=
  {| sx_name := name; sx_groups := []; sx_sliders := []; sx_combos := [];
     sx_progs := []; sx_shapes := [shape_rest]; sx_stack := StackRef 0;
     sx_models := []; sx_falloffModels := [] |}.

#[local] Instance example_items : InterfaceItems := {|
  Simplex_eq x y :=
    String.eqb (sx_name x) (sx_name y) && bool_decide (sx_stack x = sx_stack y);
  setLegacy _ sx := sx;
  buildSystemFromMesh _ name _ := empty_system name;
  buildComboName sliders _ := String.concat "_" (map slider_name sliders);
  createCombo name sx sliders values :=
    let c := {| combo_name := name;
                combo_pairs :=
                  zip_with (fun s v => {| cp_slider := s; cp_value := v |})
                    sliders values;
                combo_prog := {| prog_name := name;
                                 prog_pairs := [pair_of name shape_rest] |} |} in
    (c, {| sx_name := sx_name sx; sx_groups := sx_groups sx;
           sx_sliders := sx_sliders sx; sx_combos := sx_combos sx ++ [c];
           sx_progs := sx_progs sx ++ [combo_prog c];
           sx_shapes := sx_shapes sx; sx_stack := sx_stack sx;
           sx_models := sx_models sx;
           sx_falloffModels := sx_falloffModels sx |});
  createGroup name sx _ :=
    {| sx_name := sx_name sx; sx_groups := sx_groups sx ++ [name];
       sx_sliders := sx_sliders sx; sx_combos := sx_combos sx;
       sx_progs := sx_progs sx; sx_shapes := sx_shapes sx;
       sx_stack := sx_stack sx; sx_models := sx_models sx;
       sx_falloffModels := sx_falloffModels sx |};
  createSlider name sx _ :=
    {| sx_name := sx_name sx; sx_groups := sx_groups sx;
       sx_sliders :=
         sx_sliders sx ++
         [ {| slider_name := name; slider_value := 0%float;
              slider_prog := {| prog_name := name;
                                prog_pairs := [pair_of name shape_rest] |} |} ];
       sx_combos := sx_combos sx; sx_progs := sx_progs sx;
       sx_shapes := sx_shapes sx; sx_stack := sx_stack sx;
       sx_models := sx_models sx;
       sx_falloffModels := sx_falloffModels sx |};
  buildEmptySystem _ name _ := empty_system name;
  renameShape p name sx :=
    {| sx_name := sx_name sx; sx_groups := sx_groups sx;
       sx_sliders := sx_sliders sx; sx_combos := sx_combos sx;
       sx_progs := sx_progs sx;
       sx_shapes :=
         map (fun sh => if decide (sh = pp_shape p)
                        then {| shape_name := name;
                                shape_isRest := shape_isRest sh |}
                        else sh) (sx_shapes sx);
       sx_stack := sx_stack sx; sx_models := sx_models sx;
       sx_falloffModels := sx_falloffModels sx |} |}.

#[local] Instance example_order : PyOrder := {|
  set_iter X := elements X;
  dict_iteritems V m := map_to_list m;
  dict_keys_nat V m := elements (dom m) |}.




(** The rig loaded while the box of systems has no entry, as after a
  direct call of [setSystem]. *)
Definition detached_dialog : Dialog :=
  set_cbox {| cbox_items := []; cbox_currentIndex := -1; cbox_blocked := false |}
    loaded_dialog.

(** Rows of two pairs whose shape names are of the same length, around a
  longer one. *)
Definition shape_frown : Shape := {| shape_name := "frown"; shape_isRest := false |}.

Definition tied_rows : list (@Index example_model) :=
  [IProgPair (pair_of "smile" shape_smile);
   IProgPair (pair_of "jawOpen" shape_jaw);
   IProgPair (pair_of "frown" shape_frown)].

#[local] Instance example_expansion : TreeExpansion := {|
  setItemExpansion t := t |}.

(** The rig with the rest pairs of the two sliders selected. *)
Definition rest_selected : Dialog :=
  set_tree uiSliderTREE
    (tree_with [slot_unifySliderSelection; slot_populateComboRequirements]
       [IProgPair (pair_of "jawOpen" shape_rest);
        IProgPair (pair_of "smile" shape_rest)])
    loaded_dialog.

(** * Properties *)

Example name_check_slider : Re.matched "Slider" = Some "Slider".
Proof. reflexivity. Qed.
Example name_check_trailing : Re.matched "a b!" = Some "a".
Proof. reflexivity. Qed.
Example name_check_digit : Re.matched "1abc" = None.
Proof. reflexivity. Qed.
Example name_check_underscore : Re.matched "_abc" = None.
Proof. reflexivity. Qed.
Example splitext_obj : OsPath.splitext "jaw.open.obj" = ("jaw.open", ".obj").
Proof. reflexivity. Qed.
Example splitext_hidden : OsPath.splitext ".obj" = (".obj", "").
Proof. reflexivity. Qed.
Example rsplit_twice :
PyStr.rsplit1_head "_Extract" "a_Extract_b_Extract" = "a_Extract_b".
Proof. reflexivity. Qed.

Lemma get_bind {A B} (f : Dialog -> A) (k : A -> M B) (d : Dialog) :
  (x <- get f ;; k x) d = k (f d) d.
Proof. reflexivity. Qed.

(** ** Linked selection of the two trees *)

Lemma unmodified_iff (mods : Z) :
  (Z.land mods (Z.lor ControlModifier ShiftModifier) =? 0)%Z
  = negb (held ControlModifier mods || held ShiftModifier mods).
Proof.
  unfold held. rewrite Z.land_lor_distr_r.
  destruct (Z.eqb_spec (Z.land mods ControlModifier) 0) as [Hc|Hc];
    destruct (Z.eqb_spec (Z.land mods ShiftModifier) 0) as [Hs|Hs]; simpl;
    apply Z.eqb_eq || apply Z.eqb_neq; rewrite Z.lor_eq_0_iff; tauto.
Qed.

(** Clearing alone announces the change: the block is what keeps the other
  tree's handler from running in turn. *)
Lemma clearSelection_unblocked_emits (t : TreeId) (d : Dialog) sm i l :
  tree_selectionModel (tree d t) = Some sm ->
  sm_selection sm = i :: l -> sm_blocked sm = false ->
  log (final (clearSelection t d)) = log d ++ [Emit (selectionChanged t)].
Proof.
  intros Hsm Hsel Hb. unfold clearSelection, bind, selectionModel, get.
  rewrite Hsm. cbn. rewrite Hsel, Hb. reflexivity.
Qed.

Lemma unify_cleared (t : TreeId) (d : Dialog) sm :
  tree_selectionModel (tree d t) = Some sm ->
  (signalsBlocked (SelectionModelOf t) (clearSelection t) ;;;
   emit (ViewportUpdate t)) d
  = Ok tt (set_log (log d ++ [ViewportUpdate t])
             (set_selectionModel t
                (Some {| sm_selection := []; sm_blocked := false;
                         sm_slots := sm_slots sm |}) d)).
Proof.
  intros Hsm.
  unfold signalsBlocked, try_finally, blockSignals, clearSelection, bind,
    selectionModel, get, modify, emit, ret.
  rewrite Hsm.
  destruct t; cbn in *; destruct (sm_selection sm); reflexivity.
Qed.

Lemma unifySliderSelection_run (mods : Z) (d : Dialog) :
  unifySliderSelection mods d =
  Ok tt (if held ControlModifier mods || held ShiftModifier mods then d
         else cleared uiComboTREE d).
Proof.
  unfold unifySliderSelection, cleared. rewrite unmodified_iff.
  destruct (held ControlModifier mods || held ShiftModifier mods); [reflexivity|].
  cbn [negb]. unfold bind at 1. unfold selectionModel at 1, get.
  destruct (tree_selectionModel (tree d uiComboTREE)) as [sm|] eqn:Hsm;
    [|reflexivity].
  apply (unify_cleared uiComboTREE d sm Hsm).
Qed.

Lemma unifyComboSelection_run (mods : Z) (d : Dialog) :
  unifyComboSelection mods d =
  Ok tt (if held ControlModifier mods || held ShiftModifier mods then d
         else cleared uiSliderTREE d).
Proof.
  unfold unifyComboSelection, cleared. rewrite unmodified_iff.
  destruct (held ControlModifier mods || held ShiftModifier mods); [reflexivity|].
  cbn [negb]. unfold bind at 1. unfold selectionModel at 1, get.
  destruct (tree_selectionModel (tree d uiSliderTREE)) as [sm|] eqn:Hsm;
    [|reflexivity].
  apply (unify_cleared uiSliderTREE d sm Hsm).
Qed.

Lemma signals_app (l1 l2 : list Event) :
  signals (l1 ++ l2) = signals l1 ++ signals l2.
Proof. apply omap_app. Qed.

Lemma cleared_spec (t : TreeId) (d : Dialog) :
  selected t (cleared t d) = [] /\
  selection_blocked t (cleared t d) = false /\
  signals (log (cleared t d)) = signals (log d) /\
  forall t', t' <> t -> selected t' (cleared t d) = selected t' d.
Proof.
  unfold cleared, selected, selection_blocked.
  destruct (tree_selectionModel (tree d t)) as [sm|] eqn:Hsm.
  - destruct t; cbn; rewrite signals_app, app_nil_r;
      (repeat split; try reflexivity); intros [] Hne;
      first [congruence | reflexivity].
  - rewrite Hsm. auto.
Qed.

(** C1. Without Control and Shift, [unifySliderSelection] empties the
  selection of the combo tree and [unifyComboSelection] that of the slider
  tree, each time without a signal going out (the selection model is
  blocked while it is cleared, and unblocked afterwards) and without
  touching the selection of the tree the event came from; so one of the two
  selections is empty afterwards.  With Control or Shift held, both
  handlers leave the dialog as it is. *)
Theorem unify_selection (mods : Z) (d : Dialog) :
  let rs := unifySliderSelection mods d in
  let rc := unifyComboSelection mods d in
  (held ControlModifier mods = false /\ held ShiftModifier mods = false ->
   (returned rs /\
    selected uiComboTREE (final rs) = [] /\
    selection_blocked uiComboTREE (final rs) = false /\
    signals (log (final rs)) = signals (log d) /\
    selected uiSliderTREE (final rs) = selected uiSliderTREE d /\
    (selected uiSliderTREE (final rs) = [] \/
     selected uiComboTREE (final rs) = [])) /\
   (returned rc /\
    selected uiSliderTREE (final rc) = [] /\
    selection_blocked uiSliderTREE (final rc) = false /\
    signals (log (final rc)) = signals (log d) /\
    selected uiComboTREE (final rc) = selected uiComboTREE d /\
    (selected uiSliderTREE (final rc) = [] \/
     selected uiComboTREE (final rc) = []))) /\
  (held ControlModifier mods = true \/ held ShiftModifier mods = true ->
   rs = Ok tt d /\ rc = Ok tt d).
Proof.
  cbv zeta. rewrite unifySliderSelection_run, unifyComboSelection_run. split.
  - intros [-> ->]. cbn [orb final returned].
    destruct (cleared_spec uiComboTREE d) as (Hc1 & Hc2 & Hc3 & Hc4).
    destruct (cleared_spec uiSliderTREE d) as (Hs1 & Hs2 & Hs3 & Hs4).
    rewrite Hc1, Hc2, Hc3, Hs1, Hs2, Hs3.
    rewrite (Hc4 uiSliderTREE), (Hs4 uiComboTREE) by discriminate.
    tauto.
  - intros [-> | ->]; rewrite ?orb_true_r; cbn; auto.
Qed.

Lemma unify_selection_witness :
  selected uiSliderTREE loaded_dialog <> [] /\
  selected uiComboTREE loaded_dialog <> [] /\
  selected uiComboTREE (final (unifySliderSelection 0 loaded_dialog)) = [] /\
  selected uiSliderTREE (final (unifyComboSelection 0 loaded_dialog)) = [] /\
  unifySliderSelection ControlModifier loaded_dialog = Ok tt loaded_dialog.
Proof.
  split; [discriminate|]. split; [discriminate|].
  pose proof (unify_selection 0 loaded_dialog) as [Hclear _].
  pose proof (unify_selection ControlModifier loaded_dialog) as [_ Hheld].
  cbv zeta in *.
  destruct (Hclear (conj eq_refl eq_refl)) as [(_ & Hs & _) (_ & Hc & _)].
  destruct (Hheld (or_introl eq_refl)) as [Hk _].
  auto.
Defined.

(** ** The dependency check boxes *)

(** C2. After the handler of the "All", "Any" or "Only" box ran, the two
  other boxes are unchecked and the box itself is as it was, so at most one
  of the three is checked; no signal went out while unchecking.  When the
  combo tree has a filter proxy, its three flags are then the states of the
  three boxes and its filter was invalidated once more; when the tree has
  no model, the handler stops there. *)
Theorem combo_requirement_exclusive (d : Dialog) :
  Forall (fun '(handler, own) =>
    let r := handler d in
    (forall c, c ∈ dependency_boxes -> c <> own ->
       checked (final r) c = false) /\
    checked (final r) own = checked d own /\
    length (checked_boxes (final r)) <= 1 /\
    signals (log (final r)) = signals (log d) /\
    match tree_model (tree d uiComboTREE) with
    | Some (FilterProxy m) =>
        returned r /\
        tree_model (tree (final r) uiComboTREE)
        = Some (FilterProxy (requirements_enabled (final r) m))
    | Some (QStandardItemModel _) =>
        r = Raise AttributeError (final r) /\
        tree_model (tree (final r) uiComboTREE)
        = Some (QStandardItemModel
                  (Some (checked (final r) uiComboDependAllCHK,
                         checked (final r) uiComboDependAnyCHK,
                         checked (final r) uiComboDependOnlyCHK)))
    | None =>
        returned r /\ tree (final r) uiComboTREE = tree d uiComboTREE
    end)
  [ (setAllComboRequirement, uiComboDependAllCHK);
    (setAnyComboRequirement, uiComboDependAnyCHK);
    (setOnlyComboRequirement, uiComboDependOnlyCHK) ].
Proof.
  destruct d as [sx obj mul [ts [cm csel]] [[a ab] [b bb] [c cb] lk] bs gs ac cbx nm ad lg].
  repeat apply List.Forall_cons; try apply List.Forall_nil;
    (cbv zeta; split;
     [ intros x Hx Hne; unfold dependency_boxes in Hx;
       repeat (apply elem_of_cons in Hx as [->|Hx]); try (now inversion Hx);
       try congruence;
       destruct a, b, c, cm as [[fl|m]|]; reflexivity
     | destruct a, b, c, cm as [[fl|m]|]; cbv;
       repeat split; try reflexivity; try lia ]).
Qed.

(** C3. With a filter proxy on the combo tree, [populateComboRequirements]
  returns; [requires] stays what it was when "Lock" is checked and becomes
  the sliders selected in the slider tree when it is not; the three flags
  stay; and the filter is invalidated once when one of the flags is set,
  and not at all otherwise.  (Without a filter proxy it raises, unless the
  tree has a bare model on which three unset flags were stored.) *)
Theorem populate_requirements (d : Dialog) :
  let r := populateComboRequirements d in
  match tree_model (tree d uiComboTREE) with
  | Some (FilterProxy m) =>
      exists m',
        r = Ok tt (set_model uiComboTREE (Some (FilterProxy m')) d) /\
        requires m' =
          (if checked d uiComboDependLockCHK then requires m
           else sliders_of (selected uiSliderTREE d)) /\
        filterRequiresAll m' = filterRequiresAll m /\
        filterRequiresAny m' = filterRequiresAny m /\
        filterRequiresOnly m' = filterRequiresOnly m /\
        isolateList m' = isolateList m /\
        invalidations m' =
          (if filters_on_requirements m then S (invalidations m)
           else invalidations m)
  | Some (QStandardItemModel (Some (all, any, only))) =>
      r = if all || any || only then Raise AttributeError d else Ok tt d
  | Some (QStandardItemModel None) | None => r = Raise AttributeError d
  end.
Proof.
  cbv zeta. unfold populateComboRequirements, getSelectedItems,
    selectionModel, model, isChecked.
  unfold bind, get, ret, modify, raise, checked, selected.
  destruct (tree_model (tree d uiComboTREE)) as [[[[[a b] c]|]|m]|];
    try reflexivity; [destruct a, b, c; reflexivity|].
  unfold filters_on_requirements.
  destruct (cb_checked (check d uiComboDependLockCHK)); cbn;
    destruct (filterRequiresAll m) eqn:Ea, (filterRequiresAny m) eqn:Eb,
      (filterRequiresOnly m) eqn:Ec;
    cbn; eexists; (split; [reflexivity|]); cbn; rewrite ?Ea, ?Eb, ?Ec;
    repeat split; reflexivity.
Qed.

(** ** Isolate mode *)

Section IsolateProperties.
Context `{InterfaceModelTrees}.





End IsolateProperties.

(** ** Loading and unloading a system *)

Lemma remove_first_elem (s : Slot) (l : list Slot) :
  s ∈ l -> exists l', remove_first s l = Some l'.
Proof.
  induction l as [|x l IH]; intros Hin.
  - inversion Hin.
  - cbn. destruct (decide (x = s)) as [->|Hne]; [eauto|].
    apply elem_of_cons in Hin as [->|Hin]; [congruence|].
    destruct (IH Hin) as [l' ->]. cbn. eauto.
Qed.

Lemma remove_first_other (s s' : Slot) (l l' : list Slot) :
  remove_first s l = Some l' -> s' <> s -> s' ∈ l -> s' ∈ l'.
Proof.
  revert l'. induction l as [|x l IH]; intros l' Hrm Hne Hin; [inversion Hin|].
  cbn in Hrm. destruct (decide (x = s)) as [->|Hx].
  - inversion Hrm; subst. apply elem_of_cons in Hin as [->|Hin]; [congruence|done].
  - destruct (remove_first s l) as [l0|]; [|discriminate].
    cbn in Hrm. inversion Hrm; subst.
    apply elem_of_cons in Hin as [->|Hin]; [left|right; eauto].
Qed.

Lemma disconnect_run (t : TreeId) (s : Slot) (d : Dialog) (sm : SelectionModel) :
  tree_selectionModel (tree d t) = Some sm -> s ∈ sm_slots sm ->
  exists l', remove_first s (sm_slots sm) = Some l' /\
    disconnect t s d =
    Ok tt (set_selectionModel t
             (Some {| sm_selection := sm_selection sm;
                      sm_blocked := sm_blocked sm; sm_slots := l' |}) d).
Proof.
  intros Hsm Hin. destruct (remove_first_elem s _ Hin) as [l' Hl'].
  exists l'. split; [done|].
  unfold disconnect, bind, selectionModel, get. rewrite Hsm, Hl'. reflexivity.
Qed.

Section SystemProperties.
Context `{Utils} `{InterfaceItems} `{InterfaceModelTrees}.

(** The three [disconnect] calls of [setSystem] go through on a connected
  dialog, and touch the two trees only. *)
Lemma disconnect_all {A} (v : A) (d : Dialog) :
  connected d ->
  exists ts tc,
    (disconnect uiSliderTREE slot_unifySliderSelection ;;;
     disconnect uiSliderTREE slot_populateComboRequirements ;;;
     disconnect uiComboTREE slot_unifyComboSelection ;;;
     ret v) d
    = Ok v (set_tree uiComboTREE tc (set_tree uiSliderTREE ts d)).
Proof.
  intros [(sms & Hs & Hu & Hp) (smc & Hc & Huc)].
  destruct (disconnect_run _ _ d sms Hs Hu) as (l1 & Hl1 & E1).
  unfold bind at 1. rewrite E1.
  set (d1 := set_selectionModel _ _ d).
  assert (Hs1 : tree_selectionModel (tree d1 uiSliderTREE) =
                Some {| sm_selection := sm_selection sms;
                        sm_blocked := sm_blocked sms; sm_slots := l1 |})
    by reflexivity.
  assert (Hp1 : slot_populateComboRequirements ∈ l1)
    by (eapply remove_first_other; eauto; discriminate).
  destruct (disconnect_run _ _ d1 _ Hs1 Hp1) as (l2 & Hl2 & E2).
  unfold bind at 1. rewrite E2.
  set (d2 := set_selectionModel _ _ d1).
  assert (Hc2 : tree_selectionModel (tree d2 uiComboTREE) = Some smc)
    by exact Hc.
  destruct (disconnect_run _ _ d2 _ Hc2 Huc) as (l3 & Hl3 & E3).
  unfold bind at 1. rewrite E3.
  subst d2 d1. unfold set_selectionModel, ret.
  destruct d as [? ? ? [ts0 tc0] ? ? ? ? ? ? ? ?]. cbn.
  eexists _, _. reflexivity.
Qed.

Lemma disabled_controls (l : list Child) (c : Child) :
  c ∈ map (fun child =>
             if is_control (child_kind child)
             then {| child_kind := child_kind child; child_enabled := false |}
             else child) l ->
  is_control (child_kind c) = true -> child_enabled c = false.
Proof.
  intros Hin Hc. apply list_elem_of_fmap in Hin as (c0 & -> & _).
  destruct (is_control (child_kind c0)) eqn:E; [reflexivity|congruence].
Qed.

(** C9. [setSystem] with a system equal to the loaded one returns at once,
  the dialog untouched.  Otherwise, on a wired dialog: given a system, the
  dialog holds that system afterwards (its name, groups, sliders, combos,
  progressions and shapes, its lists of models emptied, as [setLegacy]
  leaves it) with the stack of the system it replaces, and with a newly
  made stack only when there was none (no stack is made otherwise); given
  [None], no system is loaded, both trees have a bare new model and an
  empty selection, every control of the shape, combo and connection groups
  is disabled, and [simplexLoaded] goes out last. *)
Theorem setSystem_spec (system : option Simplex) (d : Dialog) :
  let r := setSystem system d in
  (system_eq system (simplex d) = true -> r = Ok tt d) /\
  (system_eq system (simplex d) = false ->
   wired d ->
   (forall b sx, sx_stack (setLegacy b sx) = sx_stack sx) ->
   returned r /\ wired (final r) /\
   list.last (log (final r)) = Some (Emit simplexLoaded) /\
   match system with
   | Some new =>
       exists sx',
         simplex (final r) = Some sx' /\
         sx' = setLegacy (action d uiLegacyJsonACT)
                 {| sx_name := sx_name new; sx_groups := sx_groups new;
                    sx_sliders := sx_sliders new; sx_combos := sx_combos new;
                    sx_progs := sx_progs new; sx_shapes := sx_shapes new;
                    sx_stack :=
                      match simplex d with
                      | Some old => sx_stack old
                      | None => StackRef (next_address d)
                      end;
                    sx_models := []; sx_falloffModels := [] |} /\
         sx_stack sx' =
           match simplex d with
           | Some old => sx_stack old
           | None => StackRef (next_address d)
           end /\
         next_address (final r) =
           match simplex d with
           | Some _ => next_address d
           | None => S (next_address d)
           end
   | None =>
       simplex (final r) = None /\
       (forall t, tree (final r) t = fresh_tree (QStandardItemModel None) []) /\
       (forall g c, c ∈ children (final r) g ->
                    is_control (child_kind c) = true -> child_enabled c = false) /\
       log (final r) = log d ++ [FalloffLoadSimplex; Emit simplexLoaded]
   end).
Proof.
  cbv zeta. split.
  - intros E. unfold setSystem, bind at 1. unfold get at 1. now rewrite E.
  - intros E Hw Hleg.
    remember (setSystem system d) as r eqn:Hr.
    unfold setSystem, bind at 1 in Hr. unfold get at 1 in Hr. rewrite E in Hr.
    destruct (simplex d) as [old|] eqn:Hsx.
    + assert (Hc : connected d) by (apply Hw; congruence).
      destruct (disconnect_all (sx_stack old) d Hc) as (ts & tc & Ed).
      unfold bind at 1 in Hr. rewrite Ed in Hr. clear Ed.
      destruct system as [new|].
      * destruct d as [? ? ? [ts0 tc0] ? ? ? ? ? ? ? lg]. cbn in E, Hsx. 
        lazy -[app map setLegacy newSliderFilterModel newComboFilterModel sx_stack
               is_control child_kind child_enabled] in Hr.
        subst r. cbn.
        split; [exact I|]. split.
        { intros _. split; eexists; (split; [reflexivity|]); cbn;
            repeat split; repeat constructor. }
        split; [now rewrite last_snoc|].
        eexists. split; [reflexivity|]. split; [reflexivity|].
        rewrite Hleg. cbn. auto.
      * destruct d as [? ? ? [ts0 tc0] ? ? [g1 g2 g3] ? ? ? ? lg]. cbn in E, Hsx. 
        lazy -[app map setLegacy newSliderFilterModel newComboFilterModel sx_stack
               is_control child_kind child_enabled] in Hr.
        subst r. cbn.
        split; [exact I|].
        split; [unfold wired; cbn; intros Hne; exfalso; now apply Hne|].
        split; [apply last_snoc|].
        split; [reflexivity|]. split; [intros []; reflexivity|].
        split; [|now rewrite <- app_assoc].
        intros [] c Hin; cbn in Hin; eapply disabled_controls; eauto.
    + destruct system as [new|]; [|discriminate].
      destruct d as [? ? ? [ts0 tc0] ? ? ? ? ? ? ? lg]. cbn in E, Hsx. 
        lazy -[app map setLegacy newSliderFilterModel newComboFilterModel sx_stack
               is_control child_kind child_enabled] in Hr.
      subst r. cbn.
      split; [exact I|]. split.
      { intros _. split; eexists; (split; [reflexivity|]); cbn;
          repeat split; repeat constructor. }
      split; [now rewrite last_snoc|].
      eexists. split; [reflexivity|]. split; [reflexivity|].
      rewrite Hleg. cbn. auto.
Qed.

(** Once [setSystem] has loaded a system, both trees hold a filter proxy:
  the slots it connected find the attributes they read. *)
Lemma setSystem_proxies (system : Simplex) (d : Dialog) :
  system_eq (Some system) (simplex d) = false -> wired d ->
  exists ms mc,
    tree_model (tree (final (setSystem (Some system) d)) uiSliderTREE)
    = Some (FilterProxy ms) /\
    tree_model (tree (final (setSystem (Some system) d)) uiComboTREE)
    = Some (FilterProxy mc).
Proof.
  intros E Hw.
  remember (setSystem (Some system) d) as r eqn:Hr.
  unfold setSystem, bind at 1 in Hr. unfold get at 1 in Hr. rewrite E in Hr.
  destruct (simplex d) as [old|] eqn:Hsx.
  - assert (Hc : connected d) by (apply Hw; congruence).
    destruct (disconnect_all (sx_stack old) d Hc) as (ts & tc & Ed).
    unfold bind at 1 in Hr. rewrite Ed in Hr. clear Ed.
    destruct d as [? ? ? [ts0 tc0] ? ? ? ? ? ? ? lg]. cbn in E, Hsx.
    lazy -[app map setLegacy newSliderFilterModel newComboFilterModel sx_stack
           is_control child_kind child_enabled] in Hr.
    subst r. cbn. eauto.
  - destruct d as [? ? ? [ts0 tc0] ? ? ? ? ? ? ? lg]. cbn in E, Hsx.
    lazy -[app map setLegacy newSliderFilterModel newComboFilterModel sx_stack
           is_control child_kind child_enabled] in Hr.
    subst r. cbn. eauto.
Qed.

End SystemProperties.

(** ** New combos *)

Section ComboProperties.
Context `{Utils} `{InterfaceItems} `{InterfaceModelTrees}.

Lemma collect_active (l : list Slider) (ss : list Slider) (vs : list float) :
  fold_left (fun '(sliders, values) s =>
               if negb (PrimFloat.eqb (slider_value s) 0%float)
               then (sliders ++ [s], values ++ [slider_value s])
               else (sliders, values)) l (ss, vs)
  = (ss ++ active_sliders l, vs ++ map slider_value (active_sliders l)).
Proof.
  revert ss vs. induction l as [|s l IH]; intros ss vs; cbn.
  - now rewrite !app_nil_r.
  - destruct (negb (PrimFloat.eqb (slider_value s) 0%float)).
    + rewrite IH. cbn. now rewrite <- !app_assoc.
    + apply IH.
Qed.

(** C7. With a system loaded, [newActiveCombo] takes the sliders whose
  value is not zero, in the order of the system, and their values in the
  same order, names the combo by [Combo.buildComboName] of the two lists,
  creates it by [Combo.createCombo] with that name and the two lists, and
  selects the created combo, and nothing else, in the combo tree.  Without
  a system it leaves the dialog as it is. *)
Theorem newActiveCombo_spec (d : Dialog) :
  newActiveCombo d =
  match simplex d with
  | None => Ok tt d
  | Some sx =>
      let sliders := active_sliders (sx_sliders sx) in
      let values := map slider_value sliders in
      let created := createCombo (buildComboName sliders values) sx sliders values in
      Ok tt (set_tree uiComboTREE
               (setItemSelection [ICombo created.1] (tree d uiComboTREE))
               (set_simplex (Some created.2) d))
  end.
Proof.
  unfold newActiveCombo, bind at 1. unfold get at 1.
  destruct (simplex d) as [sx|]; [|reflexivity].
  rewrite collect_active. cbn [app].
  destruct (createCombo _ _ _ _) as [c sx'] eqn:E. reflexivity.
Qed.

End ComboProperties.

Example newActiveCombo_face :
  option_map combo_name
    (list.last (sx_combos (default (face 0)
       (simplex (final (newActiveCombo loaded_dialog))))))
  = Some "jawOpen" /\
  selected uiComboTREE (final (newActiveCombo loaded_dialog))
  = [ICombo {| combo_name := "jawOpen";
               combo_pairs := [ {| cp_slider := slider_jaw; cp_value := 1%float |} ];
               combo_prog := {| prog_name := "jawOpen";
                                prog_pairs := [pair_of "jawOpen" shape_rest] |} |}].
Proof. split; reflexivity. Qed.

(** ** Names *)



Lemma str_ascii (text : string) (d : Dialog) :
  PyStr.is_ascii text = true -> str text d = Ok text d.
Proof. intros E. unfold str. now rewrite E. Qed.


Section NameProperties.
Context `{Utils} `{InterfaceItems} `{InterfaceModelTrees}.



End NameProperties.

(** ** Batches *)







(** The number of steps run: all of them when Cancel is never pressed, and
  otherwise the steps up to the first press. *)
Lemma processed_from_spec (user : nat -> bool) (q n : nat) :
  let k := processed_from user q n in
  k <= n /\
  (forall j, S j < k -> user (q + j) = false) /\
  (canceled_from user q n = false -> k = n) /\
  (canceled_from user q n = true -> 0 < k /\ user (q + (k - 1)) = true).
Proof.
  cbv zeta. revert q. induction n as [|n IH]; intros q; cbn.
  - repeat split; try lia; discriminate.
  - destruct (user q) eqn:E; cbn.
    + split; [lia|]. split; [intros j Hj; lia|]. split; [discriminate|].
      intros _. split; [lia|]. now rewrite Nat.add_0_r.
    + destruct (IH (S q)) as (Hle & Hfalse & Hall & Hcancel).
      split; [lia|]. split.
      * intros [|j] Hj; [now rewrite Nat.add_0_r|].
        replace (q + S j) with (S q + j) by lia. apply Hfalse. lia.
      * split; [intros Hc; f_equal; auto|].
        intros Hc. destruct (Hcancel Hc) as [Hk Hu]. split; [lia|].
        rewrite <- Hu. f_equal. lia.
Qed.


Section ExtractionProperties.
Context `{Utils} `{InterfaceModel}.


Lemma by_shape_name_order :
  strict_weak_order key_lt -> strict_weak_order by_shape_name.
Proof. intros [Ha Ht]. split; unfold by_shape_name; eauto. Qed.


End ExtractionProperties.

(** ** Strings *)






(** ** Dicts filled in a loop *)









Section SceneProperties.
Context `{PyOrder}.


End SceneProperties.

(** ** Loading a folder *)










Section Masters.
Variable sx : Simplex.
Variable inPairs : gmap string string.

Local Abbreviation shapeDict := (shapeDict_of (sx_shapes sx)).
Local Abbreviation step :=
  (fun acc (mp : Master * ProgPair) =>
     masters_step (shapeDict_of (sx_shapes sx)) inPairs mp.1 acc mp.2).




End Masters.













Lemma import_events_files {X} (folder : string) (shapeDict : gmap string Shape)
  (inPairs : gmap string string) (connect : X -> Shape -> string -> Event)
  (js : list (string * X)) (p : string) :
  (forall x sh m, connect x sh m <> ImportObj p) ->
  ImportObj p ∈ concat (import_events folder shapeDict inPairs connect <$> js) ->
  exists n file, inPairs !! n = Some file /\ p = OsPath.join folder file.
Proof.
  intros Hconnect Hin.
  apply list_elem_of_In, in_concat in Hin as (evs & Hevs & Hp).
  apply list_elem_of_In in Hevs, Hp.
  apply list_elem_of_fmap in Hevs as ([n x] & -> & _).
  unfold import_events in Hp. cbn [fst snd] in Hp.
  destruct (inPairs !! n) as [file|] eqn:E; [|inversion Hp].
  destruct (shapeDict !! n) as [shape|]; [|inversion Hp].
  apply elem_of_cons in Hp as [[= ->]|Hp]; [eauto|].
  apply elem_of_cons in Hp as [Hp|Hp]; [|inversion Hp].
  symmetry in Hp. now apply Hconnect in Hp.
Qed.








Lemma inPairs_fold (shapeDict : gmap string Shape) (paths : list string)
  (acc : gmap string string) (n : string) :
  fold_left (fun inPairs path =>
    let shapeName := stem path in
    match shapeDict !! shapeName with
    | Some _ => <[shapeName := path]> inPairs
    | None =>
        let sfx := "_Extract" in
        if PyStr.endswith shapeName sfx then
          let shapeName := PyStr.drop_end (String.length sfx) shapeName in
          match shapeDict !! shapeName with
          | Some _ => <[shapeName := path]> inPairs
          | None => inPairs
          end
        else inPairs
    end) paths acc !! n =
  match list.last (List.filter
          (fun path => bool_decide (file_shape shapeDict path = Some n)) paths) with
  | Some path => Some path
  | None => acc !! n
  end.
Proof.
  revert acc. induction paths as [|p paths IH]; intros acc;
    cbn [fold_left List.filter]; [reflexivity|].
  rewrite IH. clear IH. cbv zeta.
  set (rest := List.filter _ paths).
  assert (Hstep : forall k : string,
    file_shape shapeDict p = Some k ->
    match list.last (if bool_decide (Some k = Some n) then p :: rest else rest) with
    | Some path => Some path
    | None => acc !! n
    end =
    match list.last rest with
    | Some path => Some path
    | None => <[k := p]> acc !! n
    end).
  { intros k _. case_bool_decide as Hk.
    - injection Hk as ->. destruct rest as [|y l'] eqn:Er.
      + cbn. now rewrite lookup_insert_eq.
      + rewrite last_cons_cons. destruct (list.last (y :: l')) eqn:El;
          [reflexivity|]. apply last_None in El. discriminate.
    - destruct (list.last rest); [reflexivity|].
      rewrite lookup_insert_ne; [reflexivity|congruence]. }
  destruct (shapeDict !! stem p) as [sh|] eqn:E.
  - assert (Hf : file_shape shapeDict p = Some (stem p)).
    { unfold file_shape. cbv zeta.
      rewrite bool_decide_eq_true_2; [reflexivity|rewrite E; eauto]. }
    rewrite Hf. symmetry. now apply Hstep.
  - destruct (PyStr.endswith (stem p) "_Extract") eqn:Es.
    + destruct (shapeDict !! PyStr.drop_end _ _) as [sh|] eqn:E'.
      * assert (Hf : file_shape shapeDict p =
                     Some (PyStr.drop_end (String.length "_Extract") (stem p))).
        { unfold file_shape. cbv zeta.
          rewrite bool_decide_eq_false_2 by (rewrite E; intros [? [=]]).
          rewrite Es.
          rewrite bool_decide_eq_true_2; [reflexivity|rewrite E'; eauto]. }
        rewrite Hf. symmetry. now apply Hstep.
      * assert (Hf : file_shape shapeDict p = None).
        { unfold file_shape. cbv zeta.
          rewrite bool_decide_eq_false_2 by (rewrite E; intros [? [=]]).
          rewrite Es.
          now rewrite bool_decide_eq_false_2 by (rewrite E'; intros [? [=]]). }
        rewrite Hf. now rewrite bool_decide_eq_false_2 by discriminate.
    + assert (Hf : file_shape shapeDict p = None).
      { unfold file_shape. cbv zeta.
        rewrite bool_decide_eq_false_2 by (rewrite E; intros [? [=]]).
        now rewrite Es. }
      rewrite Hf. now rewrite bool_decide_eq_false_2 by discriminate.
Qed.





Section ImportProperties.
Context `{PyOrder}.


End ImportProperties.

(** ** More on loading and unloading *)

Section LoadProperties.
Context `{Utils} `{InterfaceItems} `{InterfaceModelTrees}.

(** What [setSystem] leaves when it loads a system. *)
Lemma setSystem_some_run (system : Simplex) (d : Dialog) :
  system_eq (Some system) (simplex d) = false -> wired d ->
  let loaded := with_stack (handed_stack d) system in
  exists d',
    setSystem (Some system) d = Ok tt d' /\
    simplex d' = Some (setLegacy (action d uiLegacyJsonACT) loaded) /\
    tree d' uiSliderTREE =
      fresh_tree (FilterProxy (newSliderFilterModel loaded))
        [slot_unifySliderSelection; slot_populateComboRequirements] /\
    tree d' uiComboTREE =
      fresh_tree
        (FilterProxy (requirements_enabled d (newComboFilterModel loaded)))
        [slot_unifyComboSelection] /\
    (forall g, children d' g = map (with_enabled true) (children d g)) /\
    checks d' = checks d /\ buttons d' = buttons d /\
    uiCurrentSystemCBOX d' = uiCurrentSystemCBOX d /\
    _currentObject d' = _currentObject d /\ _sliderMul d' = _sliderMul d /\
    action d' = action d /\ uiShapeNameTXT d' = uiShapeNameTXT d /\
    log d' = log d ++ [FalloffLoadSimplex; IncrementRevision; Emit simplexLoaded].
Proof.
  intros E Hw. cbv zeta.
  remember (setSystem (Some system) d) as r eqn:Hr.
  unfold setSystem, bind at 1 in Hr. unfold get at 1 in Hr. rewrite E in Hr.
  unfold handed_stack.
  destruct (simplex d) as [old|] eqn:Hsx.
  - assert (Hc : connected d) by (apply Hw; congruence).
    destruct (disconnect_all (sx_stack old) d Hc) as (ts & tc & Ed).
    unfold bind at 1 in Hr. rewrite Ed in Hr. clear Ed.
    destruct d as [? ? ? [ts0 tc0] ? ? [g1 g2 g3] ? ? ? ? lg]. cbn in E, Hsx.
    lazy -[app map setLegacy newSliderFilterModel newComboFilterModel sx_stack
           is_control child_kind child_enabled] in Hr.
    subst r. eexists. split; [reflexivity|]. cbn.
    repeat split; try reflexivity.
    + intros []; reflexivity.
    + now rewrite <- !app_assoc.
  - destruct d as [? ? ? [ts0 tc0] ? ? [g1 g2 g3] ? ? ? ? lg]. cbn in E, Hsx.
    lazy -[app map setLegacy newSliderFilterModel newComboFilterModel sx_stack
           is_control child_kind child_enabled] in Hr.
    subst r. eexists. split; [reflexivity|]. cbn.
    repeat split; try reflexivity.
    + intros []; reflexivity.
    + now rewrite <- !app_assoc.
Qed.

(** What [setSystem] leaves when it unloads the system. *)
Lemma setSystem_none_run (d : Dialog) :
  simplex d <> None -> wired d ->
  exists d',
    setSystem None d = Ok tt d' /\
    simplex d' = None /\
    (forall t, tree d' t = fresh_tree (QStandardItemModel None) []) /\
    (forall g, children d' g = map (with_enabled false) (children d g)) /\
    checks d' = checks d /\ buttons d' = buttons d /\
    uiCurrentSystemCBOX d' = uiCurrentSystemCBOX d /\
    _currentObject d' = _currentObject d /\ _sliderMul d' = _sliderMul d /\
    action d' = action d /\ uiShapeNameTXT d' = uiShapeNameTXT d /\
    next_address d' = next_address d /\
    log d' = log d ++ [FalloffLoadSimplex; Emit simplexLoaded].
Proof.
  intros Hne Hw.
  remember (setSystem None d) as r eqn:Hr.
  unfold setSystem, bind at 1 in Hr. unfold get at 1 in Hr.
  destruct (simplex d) as [old|] eqn:Hsx; [|congruence].
  cbn [system_eq] in Hr.
  assert (Hc : connected d) by (apply Hw; congruence).
  destruct (disconnect_all (sx_stack old) d Hc) as (ts & tc & Ed).
  unfold bind at 1 in Hr. rewrite Ed in Hr. clear Ed.
  destruct d as [? ? ? [ts0 tc0] ? ? [g1 g2 g3] ? ? ? ? lg]. cbn in Hsx.
  lazy -[app map setLegacy newSliderFilterModel newComboFilterModel sx_stack
         is_control child_kind child_enabled] in Hr.
  subst r. eexists. split; [reflexivity|]. cbn.
  repeat split; try reflexivity.
  - intros []; reflexivity.
  - intros []; reflexivity.
  - now rewrite <- !app_assoc.
Qed.


Lemma wired_once_wired (d : Dialog) : wired_once d -> wired d.
Proof.
  intros Hw Hne. destruct (Hw Hne) as [(m & sm & Et & Es) (m' & sm' & Et' & Es')].
  split; eexists.
  - rewrite Et. cbn. split; [reflexivity|]. rewrite Es. split; repeat constructor.
  - rewrite Et'. cbn. split; [reflexivity|]. rewrite Es'. repeat constructor.
Qed.

Lemma setSystem_keeps_wired_once (system : option Simplex) (d : Dialog) :
  wired_once d ->
  exists d', setSystem system d = Ok tt d' /\ wired_once d'.
Proof.
  intros Hw. destruct (system_eq system (simplex d)) eqn:E.
  - exists d. split; [|exact Hw].
    unfold setSystem, bind at 1. unfold get at 1. now rewrite E.
  - destruct system as [system|].
    + destruct (setSystem_some_run system d E (wired_once_wired d Hw))
        as (d' & Er & _ & Hs & Hc & _).
      exists d'. split; [exact Er|]. intros _. rewrite Hs, Hc.
      split; eexists _, _; split; reflexivity.
    + assert (Hne : simplex d <> None)
        by (intros Hn; rewrite Hn in E; discriminate).
      destruct (setSystem_none_run d Hne (wired_once_wired d Hw))
        as (d' & Er & Hsx & _).
      exists d'. split; [exact Er|]. intros Hn. congruence.
Qed.

(** X1. Whatever systems [setSystem] is given one after the other, and
  [None] among them, no call raises when the first one found the slots of
  the loaded system connected once each (or no system loaded, as the
  constructor leaves the dialog): after each call a loaded system has a
  filter proxy on both trees, and each of the three slots is connected
  exactly once, so no handler runs twice on a selection change however often
  systems were switched. *)
Theorem setSystem_sequence (systems : list (option Simplex)) (d : Dialog) :
  wired_once d ->
  let r := for_each systems setSystem d in
  returned r /\ wired_once (final r).
Proof.
  intros Hw. cbv zeta. revert d Hw.
  induction systems as [|system systems IH]; intros d Hw.
  - split; [exact I|exact Hw].
  - cbn [for_each]. unfold bind.
    destruct (setSystem_keeps_wired_once system d Hw) as (d' & -> & Hw').
    apply IH, Hw'.
Qed.

(** X2. A system that [setSystem] loads is shown with the dependency boxes
  as they stand: the three flags of the new combo filter are the states of
  the "All", "Any" and "Only" boxes.  Both trees start with an empty
  selection, every button, check box and combo box of the three groups is
  enabled, the boxes and buttons are as before, and of all signals only
  [simplexLoaded] went out, once. *)
Theorem setSystem_loaded (system : Simplex) (d : Dialog) :
  system_eq (Some system) (simplex d) = false -> wired d ->
  let r := setSystem (Some system) d in
  returned r /\
  (exists mc,
     tree_model (tree (final r) uiComboTREE) = Some (FilterProxy mc) /\
     filterRequiresAll mc = checked (final r) uiComboDependAllCHK /\
     filterRequiresAny mc = checked (final r) uiComboDependAnyCHK /\
     filterRequiresOnly mc = checked (final r) uiComboDependOnlyCHK) /\
  (forall t, selected t (final r) = [] /\
             selection_blocked t (final r) = false) /\
  (forall g c, c ∈ children (final r) g ->
     is_control (child_kind c) = true -> child_enabled c = true) /\
  checks (final r) = checks d /\ buttons (final r) = buttons d /\
  signals (log (final r)) = signals (log d) ++ [simplexLoaded].
Proof.
  intros E Hw. cbv zeta.
  destruct (setSystem_some_run system d E Hw)
    as (d' & -> & _ & Hs & Hc & Hg & Hchk & Hb & _ & _ & _ & _ & _ & Hlog).
  cbn [final returned]. split; [exact I|].
  split.
  { eexists. rewrite Hc. cbn [fresh_tree tree_model]. split; [reflexivity|].
    unfold checked, check. rewrite Hchk. cbn. auto. }
  split.
  { intros []; unfold selected, selection_blocked; rewrite ?Hs, ?Hc; auto. }
  split.
  { intros g c Hin Hctl. rewrite Hg in Hin.
    apply list_elem_of_fmap in Hin as (c0 & -> & _).
    unfold with_enabled in *.
    destruct (is_control (child_kind c0)) eqn:E'; [reflexivity|congruence]. }
  split; [exact Hchk|]. split; [exact Hb|].
  rewrite Hlog, signals_app. reflexivity.
Qed.

(** X3. Once [setSystem(None)] has unloaded a system, the trees hold a bare
  [QStandardItemModel]: [isSliderIsolate] and [isComboIsolate] then raise
  an [AttributeError] instead of answering [False], and so do
  [populateComboRequirements] and the handler of the "Lock" box. *)
Theorem unloaded_queries_raise (d : Dialog) :
  simplex d <> None -> wired d ->
  let d' := final (setSystem None d) in
  simplex d' = None /\
  isSliderIsolate d' = Raise AttributeError d' /\
  isComboIsolate d' = Raise AttributeError d' /\
  populateComboRequirements d' = Raise AttributeError d' /\
  setLockComboRequirement d' = Raise AttributeError d'.
Proof.
  intros Hne Hw. cbv zeta.
  destruct (setSystem_none_run d Hne Hw) as (d' & -> & Hsx & Ht & _).
  cbn [final]. split; [exact Hsx|].
  pose proof (Ht uiSliderTREE) as Hs. pose proof (Ht uiComboTREE) as Hc.
  cbn [tree] in Hs, Hc.
  unfold isSliderIsolate, isComboIsolate, setLockComboRequirement,
    populateComboRequirements, getSelectedItems, selectionModel, isChecked,
    model, bind, get, ret, raise.
  cbn [tree]. rewrite !Hs, !Hc. cbn. rewrite ?Hs, ?Hc. cbn. auto.
Qed.


Lemma wired_same_trees (d d' : Dialog) :
  trees d' = trees d -> (simplex d' <> None -> simplex d <> None) ->
  wired d -> wired d'.
Proof.
  intros Ht Hsx Hw Hne. specialize (Hw (Hsx Hne)).
  unfold connected, tree in *. now rewrite Ht.
Qed.


(** X6. Renaming the loaded system while the box of systems has no current
  entry (its index is -1): the name goes nowhere in the box, and the handler
  ends in [currentSystemChanged(-1)], which unloads the system that was just
  renamed. *)
Theorem renameSystem_without_entry (nn : string) (d : Dialog) (sx : Simplex) :
  simplex d = Some sx -> is_Some (Re.NAME_CHECK_match nn) -> wired d ->
  cbox_currentIndex (uiCurrentSystemCBOX d) = (-1)%Z ->
  let r := renameSystem nn true d in
  returned r /\
  simplex (final r) = None /\
  (forall t, tree (final r) t = fresh_tree (QStandardItemModel None) []) /\
  uiCurrentSystemCBOX (final r) = uiCurrentSystemCBOX d /\
  log (final r) = log d ++ [FalloffLoadSimplex; Emit simplexLoaded].
Proof.
  intros Hsx [e E] Hw Hidx. cbv zeta.
  remember (renameSystem nn true d) as r eqn:Hr.
  unfold renameSystem in Hr. rewrite get_bind, Hsx in Hr. cbn [negb] in Hr.
  rewrite E, get_bind in Hr. unfold bind at 1 in Hr. unfold modify at 1 in Hr.
  rewrite get_bind in Hr. unfold bind at 1 in Hr. unfold setItemText, modify in Hr.
  cbn [uiCurrentSystemCBOX set_simplex cbox_currentIndex cbox_items] in Hr.
  rewrite Hidx in Hr. change (-1 <? 0)%Z with true in Hr. cbn match in Hr.
  unfold currentSystemChanged in Hr. change (-1 =? -1)%Z with true in Hr.
  cbn match in Hr.
  match type of Hr with context [setSystem None ?x] => set (d1 := x) in Hr end.
  assert (Hw1 : wired d1)
    by (apply (wired_same_trees d); [reflexivity|congruence|exact Hw]).
  assert (Hne : simplex d1 <> None) by discriminate.
  destruct (setSystem_none_run d1 Hne Hw1)
    as (d' & Er & Hs' & Ht & _ & _ & _ & Hcb & _ & _ & _ & _ & _ & Hlog).
  rewrite Er in Hr. subst r.
  cbn [final returned]. split; [exact I|]. split; [exact Hs'|].
  split; [exact Ht|]. split; [|exact Hlog].
  rewrite Hcb. subst d1. cbn. rewrite <- Hidx. now destruct (uiCurrentSystemCBOX d).
Qed.

(** X7. [newSystem] with a current object and a name that [str] takes and
  that passes the check: the box of systems gets the name as a new last
  entry, whether or not it holds that name already, and that entry becomes
  the current one; the signals of the box are not blocked afterwards; and
  the system built for the object is loaded, with the stack of the system
  it replaces, unless it is [==] the loaded system, which then stays. *)
Theorem newSystem_adds_entry (name obj : string) (d : Dialog) :
  _currentObject d = Some obj -> is_Some (Re.NAME_CHECK_match name) ->
  PyStr.is_ascii name = true -> wired d ->
  let new := buildEmptySystem (Some obj) name (_sliderMul d) in
  let r := newSystem name true d in
  let items := cbox_items (uiCurrentSystemCBOX d) in
  returned r /\
  uiCurrentSystemCBOX (final r) =
    {| cbox_items := items ++ [name];
       cbox_currentIndex := Z.of_nat (length items);
       cbox_blocked := false |} /\
  simplex (final r) =
    if system_eq (Some new) (simplex d) then simplex d
    else Some (setLegacy (action d uiLegacyJsonACT)
                 (with_stack (handed_stack d) new)).
Proof.
  intros Hobj [e E] Hascii Hw. cbv zeta.
  remember (newSystem name true d) as r eqn:Hr.
  unfold newSystem in Hr. rewrite get_bind, Hobj in Hr. cbn [negb] in Hr.
  unfold bind at 1 in Hr. rewrite (str_ascii name d Hascii) in Hr.
  rewrite E, get_bind in Hr. unfold signalsBlocked in Hr.
  unfold bind at 1 in Hr. unfold blockSignals at 1, modify at 1 in Hr.
  unfold try_finally in Hr.
  unfold bind at 1 in Hr. unfold addItem at 1, modify at 1 in Hr.
  unfold bind at 1 in Hr. unfold setCurrentIndex_last, modify at 1 in Hr.
  match type of Hr with context [setSystem _ ?x] => set (d1 := x) in Hr end.
  assert (Hitems : (Z.of_nat (length (cbox_items (uiCurrentSystemCBOX d) ++ [name])) - 1
                   = Z.of_nat (length (cbox_items (uiCurrentSystemCBOX d))))%Z)
    by (rewrite length_app; cbn; lia).
  destruct (system_eq (Some (buildEmptySystem (Some obj) name (_sliderMul d)))
              (simplex d)) eqn:Heq.
  - assert (Er : setSystem
                   (Some (buildEmptySystem (Some obj) name (_sliderMul d))) d1
                 = Ok tt d1).
    { unfold setSystem, bind at 1. unfold get at 1.
      change (simplex d1) with (simplex d). now rewrite Heq. }
    rewrite Er in Hr. unfold bind, blockSignals, modify, ret in Hr. subst r.
    cbn [final returned]. split; [exact I|].
    subst d1.
    cbn [uiCurrentSystemCBOX set_cbox cbox_items cbox_currentIndex simplex].
    split; [|reflexivity]. f_equal. exact Hitems.
  - assert (Hw1 : wired d1)
      by (apply (wired_same_trees d); [reflexivity|auto|exact Hw]).
    destruct (setSystem_some_run _ d1 Heq Hw1)
      as (d' & Er & Hs' & _ & _ & _ & _ & _ & Hcb & _).
    rewrite Er in Hr. unfold bind, blockSignals, modify, ret in Hr. subst r.
    cbn [final returned].
    split; [exact I|]. cbn [uiCurrentSystemCBOX set_cbox simplex].
    rewrite Hcb, Hs'. subst d1.
    cbn [uiCurrentSystemCBOX set_cbox cbox_items cbox_currentIndex action].
    split; [|reflexivity]. f_equal. exact Hitems.
Qed.

Section Undo.
Context `{TreeExpansion}.

(** X4. [handleUndo] raises an [AttributeError] when no system is loaded,
  and does nothing when the stack holds nothing for the revision.  A system
  that it restores in place of another takes over the stack of the one it
  replaces, so the next undo finds the same stack; the trees it is shown in
  are those [setSystem] made, handed to [setItemExpansion]. *)
Theorem handleUndo_spec (data : option Simplex) (d : Dialog) :
  (simplex d = None -> handleUndo data d = Raise AttributeError d) /\
  (simplex d <> None -> data = None -> handleUndo data d = Ok tt d) /\
  (forall old restored,
     simplex d = Some old -> data = Some restored ->
     Simplex_eq restored old = false -> wired d ->
     let loaded := with_stack (sx_stack old) restored in
     let r := handleUndo data d in
     returned r /\
     simplex (final r) = Some (setLegacy (action d uiLegacyJsonACT) loaded) /\
     tree (final r) uiSliderTREE =
       setItemExpansion
         (fresh_tree (FilterProxy (newSliderFilterModel loaded))
            [slot_unifySliderSelection; slot_populateComboRequirements]) /\
     tree (final r) uiComboTREE =
       setItemExpansion
         (fresh_tree
            (FilterProxy (requirements_enabled d (newComboFilterModel loaded)))
            [slot_unifyComboSelection])).
Proof.
  split; [|split].
  - intros Hsx. unfold handleUndo. rewrite get_bind, Hsx. reflexivity.
  - intros Hsx ->. unfold handleUndo. rewrite get_bind.
    destruct (simplex d); [reflexivity|congruence].
  - intros old restored Hsx -> E Hw. cbv zeta.
    assert (E' : system_eq (Some restored) (simplex d) = false)
      by (rewrite Hsx; exact E).
    destruct (setSystem_some_run restored d E' Hw)
      as (d' & Er & Hs & Hts & Htc & _).
    unfold handed_stack in *. rewrite Hsx in *.
    unfold handleUndo. rewrite get_bind, Hsx.
    unfold bind. rewrite Er. unfold modify.
    cbn [final returned]. split; [exact I|]. clear Er.
    destruct d' as [? ? ? [ts tc] ? ? ? ? ? ? ? ?]. cbn in Hs, Hts, Htc |- *.
    subst. auto.
Qed.

End Undo.

End LoadProperties.

(** ** Widgets *)

Lemma blockSignals_run (item : QObject) (b : bool) (d : Dialog) :
  present item d ->
  exists d',
    blockSignals item b d = Ok tt d' /\ blocked item d' = b /\
    present item d'.
Proof.
  destruct item as [t|c|]; cbn [present]; intros Hp.
  - destruct Hp as [sm Hsm].
    unfold blockSignals, bind, selectionModel, get, modify. rewrite Hsm.
    eexists. split; [reflexivity|].
    unfold blocked, selection_blocked. destruct t; cbn; eauto.
  - eexists. split; [reflexivity|]. destruct c; cbn; auto.
  - eexists. split; [reflexivity|]. cbn. auto.
Qed.

(** X8. [with signalsBlocked(item): body] never leaves the signals of the
  item blocked: the body runs with them blocked, and they are unblocked
  when it returns and when it raises alike, the exception going on to the
  caller.  They are unblocked afterwards even when they were blocked
  before: the state found at entry is not put back.  On the selection
  model of a tree that has none, the body does not run. *)
Theorem signalsBlocked_releases {A} (item : QObject) (body : M A) (d : Dialog) :
  let r := signalsBlocked item body d in
  (present item d ->
   (forall d', present item d' -> present item (final (body d'))) ->
   let d1 := final (blockSignals item true d) in
   blocked item d1 = true /\
   blocked item (final r) = false /\
   match body d1 with
   | Ok a d2 => r = Ok a (final (blockSignals item false d2))
   | Raise e d2 => r = Raise e (final (blockSignals item false d2))
   end) /\
  (~ present item d -> r = Raise AttributeError d).
Proof.
  cbv zeta. split.
  - intros Hp Hbody.
    destruct (blockSignals_run item true d Hp) as (d1 & E1 & Hb1 & Hp1).
    unfold signalsBlocked, bind, try_finally. rewrite E1. cbn [final].
    split; [exact Hb1|].
    specialize (Hbody d1 Hp1).
    destruct (body d1) as [a d2|e d2]; cbn [final] in Hbody;
      destruct (blockSignals_run item false d2 Hbody) as (d3 & E3 & Hb3 & _);
      unfold bind; rewrite E3; cbn [final]; auto.
  - destruct item as [t|c|]; cbn [present]; [|tauto..].
    intros Hn. destruct (tree_selectionModel (tree d t)) eqn:E;
      [exfalso; eauto|].
    unfold signalsBlocked, blockSignals, selectionModel, bind, get.
    rewrite E. reflexivity.
Qed.

Lemma with_enabled_twice (value before : bool) (c : Child) :
  with_enabled value (with_enabled before c) = with_enabled value c.
Proof.
  unfold with_enabled. destruct (is_control (child_kind c)) eqn:E; cbn;
    now rewrite E.
Qed.

(** X9. [_setObjectsEnabled(par, value)] gives [value] to every push
  button, check box and combo box among the children of [par] and leaves
  its other children as they are; the children keep their places and kinds.
  The children of the other groups, the system, the trees, the boxes and
  what was shown stay as they were.  A second call overrides the first:
  which controls were disabled before a group was disabled is not kept, so
  enabling the group enables them all. *)
Theorem setObjectsEnabled_spec (par : GroupId) (value : bool) (d : Dialog) :
  let r := _setObjectsEnabled par value d in
  returned r /\
  length (children (final r) par) = length (children d par) /\
  (forall i c, children d par !! i = Some c ->
     exists c', children (final r) par !! i = Some c' /\
       child_kind c' = child_kind c /\
       child_enabled c' =
         if is_control (child_kind c) then value else child_enabled c) /\
  (forall g, g <> par -> children (final r) g = children d g) /\
  simplex (final r) = simplex d /\ trees (final r) = trees d /\
  checks (final r) = checks d /\ buttons (final r) = buttons d /\
  log (final r) = log d /\
  (forall before,
     final (_setObjectsEnabled par value
              (final (_setObjectsEnabled par before d))) = final r).
Proof.
  cbv zeta. unfold _setObjectsEnabled, modify. cbn [final returned].
  fold (with_enabled value).
  split; [exact I|].
  split; [destruct par; cbn; apply length_map|].
  split.
  { intros i c Hc.
    exists (with_enabled value c). split.
    - destruct par; cbn in *; rewrite list_lookup_fmap, Hc; reflexivity.
    - unfold with_enabled. destruct (is_control (child_kind c)); auto. }
  split; [intros g Hg; destruct par, g; try congruence; reflexivity|].
  repeat (split; [reflexivity|]).
  intros before. destruct d as [? ? ? ? ? ? [g1 g2 g3] ? ? ? ? ?].
  destruct par; cbn; unfold set_children; cbn; do 2 f_equal;
    rewrite map_map; apply map_ext; intros c; apply with_enabled_twice.
Qed.

(** ** More batches *)


(** A stable sort keeps the order of the elements that [<] does not tell
  apart. *)
Lemma insert_sorted_stable {A} (lt : A -> A -> bool) (a x : A) (l : list A) :
  strict_weak_order lt ->
  let same := fun b => negb (lt a b) && negb (lt b a) in
  List.filter same (insert_sorted lt x l) =
  if same x then x :: List.filter same l else List.filter same l.
Proof.
  intros [Hasym Htrans]. cbv zeta.
  induction l as [|y l IH]; cbn [insert_sorted List.filter].
  - reflexivity.
  - destruct (lt y x) eqn:Eyx; cbn [List.filter].
    + rewrite IH.
      destruct (negb (lt a y) && negb (lt y a)) eqn:Ey;
        destruct (negb (lt a x) && negb (lt x a)) eqn:Ex; try reflexivity.
      exfalso.
      apply andb_true_iff in Ey as [Hay Hya], Ex as [Hax Hxa].
      apply negb_true_iff in Hay, Hya, Hax, Hxa.
      assert (lt y x = false) by (eapply Htrans; eauto).
      congruence.
    + destruct (negb (lt a x) && negb (lt x a)); reflexivity.
Qed.

Lemma py_sort_stable {A} (lt : A -> A -> bool) (a : A) (l : list A) :
  strict_weak_order lt ->
  let same := fun b => negb (lt a b) && negb (lt b a) in
  List.filter same (py_sort lt l) = List.filter same l.
Proof.
  intros Hlt. cbv zeta. induction l as [|x l IH]; cbn [py_sort foldr List.filter].
  - reflexivity.
  - change (foldr (insert_sorted lt) [] l) with (py_sort lt l).
    rewrite (insert_sorted_stable lt a x _ Hlt). cbv zeta. rewrite IH.
    reflexivity.
Qed.

Section ConnectionProperties.
Context `{Utils} `{InterfaceItems} `{InterfaceModelTrees}.


(** X11. [pairs.sort(key=...)] is stable: among the pairs whose shape names
  have sort keys that [<] does not tell apart, [shapeIndexExtract] keeps
  the order in which [makeUnique] gave them, so their offsets follow that
  order. *)
Theorem extraction_stable (indexes : list Index) (p : ProgPair) :
  strict_weak_order key_lt ->
  List.filter (same_key p) (extraction_pairs indexes) =
  List.filter (same_key p)
    (makeUnique
       (List.filter (fun i => negb (shape_isRest (pp_shape i)))
          (map itemFromIndex (coerceIndexToChildType_ProgPair indexes)))).
Proof.
  intros Hlt. unfold extraction_pairs.
  apply (py_sort_stable by_shape_name p), by_shape_name_order, Hlt.
Qed.

(** X16. With a system loaded, [newSelectedCombo] creates a combo over the
  sliders among the selected rows of the slider tree, each at the value
  1.0, named by [Combo.buildComboName], and selects it in the combo tree;
  rows that are no sliders are passed over, and with no slider selected the
  combo is created all the same, over no slider.  Without a system it
  leaves the dialog as it is. *)
Theorem newSelectedCombo_spec (d : Dialog) :
  let sliders := sliders_of (selected uiSliderTREE d) in
  let values := replicate (length sliders) 1%float in
  length values = length sliders /\
  (forall v, v ∈ values -> v = 1%float) /\
  (forall s, s ∈ sliders <-> ISlider s ∈ selected uiSliderTREE d) /\
  newSelectedCombo d =
  match simplex d with
  | None => Ok tt d
  | Some sx =>
      let created :=
        createCombo (buildComboName sliders values) sx sliders values in
      Ok tt (set_tree uiComboTREE
               (setItemSelection [ICombo created.1] (tree d uiComboTREE))
               (set_simplex (Some created.2) d))
  end.
Proof.
  cbv zeta. split; [apply length_replicate|].
  split; [intros v Hv; now apply elem_of_replicate in Hv as [-> _]|].
  split.
  { intros s. unfold sliders_of. rewrite list_elem_of_omap. split.
    - intros ([] & Hin & [=]). now subst.
    - intros Hin. exists (ISlider s). auto. }
  unfold newSelectedCombo. rewrite get_bind.
  destruct (simplex d) as [sx|]; [|reflexivity].
  unfold getSelectedItems. unfold bind at 1 2. unfold selectionModel, get at 1.
  unfold ret at 1. fold (selected uiSliderTREE d).
  destruct (createCombo _ _ _ _) as [c sx'] eqn:E. reflexivity.
Qed.

End ConnectionProperties.

(** ** More on loading a folder *)

Section FolderProperties.
Context `{PyOrder}.

(** X12. [importObjFolder] on a path that is no folder, and on a folder
  that lists no name ending in [.obj], shows one warning and does nothing
  else, with or without a system loaded.  On a folder that does list such a
  name it raises an [AttributeError] when no system is loaded, before
  anything is imported. *)
Theorem importObjFolder_refuses (user : nat -> bool) (listing : list string)
  (folder : string) (d : Dialog) :
  importObjFolder user false listing folder d
  = Ok None (set_log (log d ++ [Warning "Folder does not exist"]) d) /\
  ((forall i, i ∈ listing -> PyStr.endswith i ".obj" = false) ->
   importObjFolder user true listing folder d
   = Ok None (set_log (log d ++
       [Warning "Folder does not contain any .obj files"]) d)) /\
  (forall i, i ∈ listing -> PyStr.endswith i ".obj" = true ->
   simplex d = None ->
   importObjFolder user true listing folder d = Raise AttributeError d).
Proof.
  split; [reflexivity|]. split.
  - intros Hnone. unfold importObjFolder. cbn [negb].
    assert (E : List.filter (fun i => PyStr.endswith i ".obj") listing = []).
    { induction listing as [|x l IH]; [reflexivity|]. cbn.
      rewrite (Hnone x) by left. apply IH. intros i Hi. apply Hnone. now right. }
    rewrite E. reflexivity.
  - intros i Hi Hobj Hsx. unfold importObjFolder. cbn [negb].
    destruct (List.filter _ listing) as [|x l] eqn:E.
    + exfalso. assert (Hin : In i (List.filter (fun i => PyStr.endswith i ".obj") listing))
        by (apply List.filter_In; split; [now apply list_elem_of_In|exact Hobj]).
      rewrite E in Hin. inversion Hin.
    + rewrite get_bind, Hsx. reflexivity.
Qed.

End FolderProperties.

(** X13. The file that [importObjFolder] loads for a shape name is the last
  of the listed paths that is taken for that name, a path being taken for
  its stem when a shape has that name (a shape named [a_Extract] gets the
  file [a_Extract.obj], not the shape [a]), and otherwise for its stem
  without [_Extract].  So of [a.obj] and [a_Extract.obj] the one listed
  later is loaded for the shape [a]. *)
Theorem inPairs_last_wins (shapeDict : gmap string Shape) (paths : list string)
  (n : string) :
  inPairs_of shapeDict paths !! n =
  list.last (List.filter
    (fun path => bool_decide (file_shape shapeDict path = Some n)) paths).
Proof.
  unfold inPairs_of. rewrite inPairs_fold, lookup_empty.
  now destruct (list.last _).
Qed.

(** ** Slider values *)

Section WeightProperties.
Context `{SliderWeights} `{InterfaceModelTrees}.

Lemma kept_pairs_snoc (l : list ComboPair) (x : ComboPair) :
  kept_pairs (l ++ [x]) =
  if slider_in (cp_slider x) (cp_slider <$> kept_pairs l) then kept_pairs l
  else kept_pairs l ++ [x].
Proof. unfold kept_pairs. now rewrite fold_left_app. Qed.

(** The two lists of [setSliderVals] are the values and the sliders of the
  pairs kept. *)
Lemma combo_weights_kept (combos : list Combo) :
  combo_weights combos =
  (cp_value <$> kept_pairs (combo_pairs_of combos),
   cp_slider <$> kept_pairs (combo_pairs_of combos)).
Proof.
  unfold combo_weights, combo_pairs_of.
  assert (Hflat : forall cs acc,
    fold_left (fun acc combo =>
      fold_left (fun '(values, sliders) pair =>
                   if slider_in (cp_slider pair) sliders then (values, sliders)
                   else (values ++ [cp_value pair], sliders ++ [cp_slider pair]))
        (combo_pairs combo) acc) cs acc =
    fold_left (fun '(values, sliders) pair =>
                 if slider_in (cp_slider pair) sliders then (values, sliders)
                 else (values ++ [cp_value pair], sliders ++ [cp_slider pair]))
      (cs ≫= combo_pairs) acc).
  { induction cs as [|c cs IH]; intros acc; cbn; [reflexivity|].
    now rewrite fold_left_app, IH. }
  rewrite Hflat. generalize (combos ≫= combo_pairs). intros l.
  induction l as [|x l IH] using rev_ind; [reflexivity|].
  rewrite fold_left_app, IH, kept_pairs_snoc. cbn.
  destruct (slider_in _ _); [reflexivity|].
  now rewrite !fmap_app.
Qed.

Lemma kept_pairs_spec (l : list ComboPair) :
  kept_pairs l `sublist_of` l /\
  (forall i j p q, i < j ->
     kept_pairs l !! i = Some p -> kept_pairs l !! j = Some q ->
     Slider_eq (cp_slider q) (cp_slider p) = false) /\
  (forall p, p ∈ l ->
     exists q, q ∈ kept_pairs l /\
       (q = p \/ Slider_eq (cp_slider p) (cp_slider q) = true)).
Proof.
  induction l as [|x l (Hsub & Hpair & Hcov)] using rev_ind.
  - split; [reflexivity|]. split; [intros i j p q _ Hi; inversion Hi|].
    intros p Hp. inversion Hp.
  - rewrite kept_pairs_snoc.
    destruct (slider_in (cp_slider x) (cp_slider <$> kept_pairs l)) eqn:E.
    + split; [now apply sublist_inserts_r|]. split; [exact Hpair|].
      intros p [Hp|Hp]%elem_of_app; [auto|].
      apply list_elem_of_singleton in Hp as ->.
      unfold slider_in in E. apply existsb_exists in E as (s & Hs & Es).
      apply list_elem_of_In, list_elem_of_fmap in Hs as (q & -> & Hq). eauto.
    + split; [now apply sublist_app|]. split.
      * intros i j p q Hij Hi Hj.
        apply lookup_lt_Some in Hi as Hilt.
        destruct (decide (j < length (kept_pairs l))) as [Hjlt|Hjge].
        -- rewrite lookup_app_l in Hi, Hj by lia. eauto.
        -- apply lookup_lt_Some in Hj as Hjlt. rewrite length_app in Hjlt.
           cbn in Hjlt.
           rewrite lookup_app_l in Hi by lia.
           rewrite lookup_app_r in Hj by lia.
           apply list_lookup_singleton_Some in Hj as [_ <-].
           unfold slider_in in E.
           destruct (Slider_eq (cp_slider x) (cp_slider p)) eqn:Ex; [|reflexivity].
           rewrite <- E. symmetry. apply existsb_exists.
           exists (cp_slider p). split; [|exact Ex].
           apply list_elem_of_In, list_elem_of_fmap. exists p.
           split; [reflexivity|]. eapply list_elem_of_lookup_2; eauto.
      * intros p [Hp|Hp]%elem_of_app.
        -- destruct (Hcov p Hp) as (q & Hq & Hpq). exists q.
           split; [apply elem_of_app; auto|exact Hpq].
        -- apply list_elem_of_singleton in Hp as ->. exists x.
           split; [apply elem_of_app; right; now left|auto].
Qed.

Lemma selected_sliders_flat (combos : list Combo) (acc : list Slider) :
  fold_left (fun sliders combo =>
    fold_left (fun sliders pair => sliders ++ [cp_slider pair])
      (combo_pairs combo) sliders) combos acc
  = acc ++ (cp_slider <$> combo_pairs_of combos).
Proof.
  unfold combo_pairs_of. revert acc.
  induction combos as [|c cs IH]; intros acc; cbn; [now rewrite app_nil_r|].
  rewrite IH, fmap_app, app_assoc. f_equal.
  generalize (combo_pairs c). intros l. revert acc.
  induction l as [|x l IHl]; intros acc; cbn; [now rewrite app_nil_r|].
  rewrite IHl. now rewrite <- app_assoc.
Qed.

(** X14. With a system loaded, [setSliderVals] first sets every slider of
  the system to 0, and then hands [setSlidersWeights] the pairs it kept of
  the combos among the selected rows of the combo tree: as many values as
  sliders, each value next to its slider as in the pair.  The kept pairs
  come in the order of the combos and their pairs; no kept slider is [==]
  one kept before it, so no slider is set twice; and every pair of the
  selected combos is kept or has a slider that is [==] a kept one.
  Nothing but the system changes; without a system nothing does.
  [selectSliders] selects the sliders of the same pairs, but all of them,
  one row for each pair. *)
Theorem setSliderVals_spec (d : Dialog) :
  let pairs := combo_pairs_of (combos_of (selected uiComboTREE d)) in
  let kept := kept_pairs pairs in
  (kept `sublist_of` pairs /\
   (forall i j p q, i < j -> kept !! i = Some p -> kept !! j = Some q ->
      Slider_eq (cp_slider q) (cp_slider p) = false) /\
   (forall p, p ∈ pairs ->
      exists q, q ∈ kept /\
        (q = p \/ Slider_eq (cp_slider p) (cp_slider q) = true))) /\
  setSliderVals d =
    match simplex d with
    | None => Ok tt d
    | Some sx =>
        let zeroed :=
          setSlidersWeights (sx_sliders sx)
            (replicate (length (sx_sliders sx)) 0%float) sx in
        Ok tt (set_simplex
                 (Some (setSlidersWeights (cp_slider <$> kept)
                          (cp_value <$> kept) zeroed)) d)
    end /\
  selectSliders d =
    Ok tt (set_tree uiSliderTREE
             (setItemSelection (ISlider <$> (cp_slider <$> pairs))
                (tree d uiSliderTREE)) d).
Proof.
  cbv zeta. split; [apply kept_pairs_spec|]. split.
  - unfold setSliderVals. rewrite get_bind.
    destruct (simplex d) as [sx|] eqn:Hsx; [|reflexivity].
    unfold getSelectedItems. unfold bind at 1 2. unfold selectionModel, get at 1.
    unfold ret at 1. fold (selected uiComboTREE d).
    rewrite combo_weights_kept.
    unfold bind at 1. unfold zeroAllSliders. rewrite get_bind, Hsx.
    unfold modify at 1. rewrite get_bind. reflexivity.
  - unfold selectSliders, getSelectedItems. unfold bind at 1 2.
    unfold selectionModel, get at 1. unfold ret at 1.
    fold (selected uiComboTREE d). rewrite selected_sliders_flat.
    reflexivity.
Qed.

End WeightProperties.

(** ** Deleting rows *)

Section DeleteProperties.
Context `{Utils} `{InterfaceItems} `{InterfaceModelTrees} `{!RootItems}.

Lemma delete_check (roots : list Item) (d : Dialog) :
  for_return roots
    (fun r _ =>
       match r with
       | ISimplex _ =>
           emit (Warning "Cannot delete a simplex system this way (for now)") ;;;
           ret (tt, true)
       | _ => ret (tt, false)
       end) tt d
  = if existsb is_system roots
    then Ok (tt, true)
           (set_log (log d ++
              [Warning "Cannot delete a simplex system this way (for now)"]) d)
    else Ok (tt, false) d.
Proof.
  induction roots as [|r roots IH]; [reflexivity|].
  cbn [for_return existsb]. unfold bind at 1.
  destruct r; cbn [is_system orb]; try exact IH. reflexivity.
Qed.

Lemma delete_all (items : list Item) (d : Dialog) :
  exists d',
    for_each items (fun r =>
      sx <- get simplex ;; modify (set_simplex (delete r <$> sx))) d
    = Ok tt d' /\
    simplex d' = deleted items <$> simplex d /\
    trees d' = trees d /\ log d' = log d /\ checks d' = checks d.
Proof.
  revert d. induction items as [|r items IH]; intros d.
  - exists d. cbn. unfold ret. repeat split. now destruct (simplex d).
  - cbn [for_each]. unfold bind at 1. rewrite get_bind. unfold modify at 1.
    destruct (IH (set_simplex (delete r <$> simplex d) d))
      as (d' & -> & Hsx & Ht & Hl & Hc).
    exists d'. split; [reflexivity|]. cbn in Hsx, Ht, Hl, Hc.
    rewrite Hsx. split; [now destruct (simplex d)|auto].
Qed.

Lemma sliderTreeDelete_run (d : Dialog) :
  sliderTreeDelete d =
  let roots := coerceIndexToRoots (getSelectedIndexes (tree d uiSliderTREE)) in
  let items := makeUniqueItems (map rootFromIndex roots) in
  match roots with
  | [] => Ok tt (set_log (log d ++ [Warning "Nothing Selected"]) d)
  | _ :: _ =>
      if existsb is_system items
      then Ok tt (set_log (log d ++
             [Warning "Cannot delete a simplex system this way (for now)"]) d)
      else
        (for_each items (fun r =>
           sx <- get simplex ;; modify (set_simplex (delete r <$> sx))) ;;;
         invalidateFilter uiSliderTREE) d
  end.
Proof.
  unfold sliderTreeDelete. rewrite get_bind. cbv zeta.
  destruct (coerceIndexToRoots _) as [|i roots]; [reflexivity|].
  unfold bind at 1. rewrite delete_check.
  destruct (existsb is_system _); reflexivity.
Qed.

(** X15. [sliderTreeDelete] deletes all selected roots or none of them.
  With nothing selected it shows a warning.  When the system itself is
  among the roots (made unique) it shows a warning and deletes nothing,
  not even the other roots: the check goes over all of them before the
  first deletion.  Otherwise it deletes each of the roots, in order, and
  invalidates the filter of the slider tree once; on a tree without a
  filter proxy it raises an [AttributeError] there, after the deletions.
  [comboTreeDelete] has neither check: it deletes the roots of the combo
  tree whatever they are. *)
Theorem sliderTreeDelete_spec (d : Dialog) :
  let roots := coerceIndexToRoots (getSelectedIndexes (tree d uiSliderTREE)) in
  let items := makeUniqueItems (map rootFromIndex roots) in
  let r := sliderTreeDelete d in
  (roots = [] -> r = Ok tt (set_log (log d ++ [Warning "Nothing Selected"]) d)) /\
  (roots <> [] -> (exists s, ISimplex s ∈ items) ->
   r = Ok tt (set_log (log d ++
         [Warning "Cannot delete a simplex system this way (for now)"]) d)) /\
  (roots <> [] -> (forall s, ISimplex s ∉ items) ->
   simplex (final r) = deleted items <$> simplex d /\
   log (final r) = log d /\
   match tree_model (tree d uiSliderTREE) with
   | Some (FilterProxy m) =>
       returned r /\
       tree_model (tree (final r) uiSliderTREE) = Some (FilterProxy (invalidated m))
   | _ => r = Raise AttributeError (final r)
   end) /\
  (let items := makeUniqueItems (map rootFromIndex
                  (coerceIndexToRoots (getSelectedIndexes (tree d uiComboTREE)))) in
   simplex (final (comboTreeDelete d)) = deleted items <$> simplex d).
Proof.
  cbv zeta. rewrite sliderTreeDelete_run. cbv zeta.
  set (roots := coerceIndexToRoots _).
  set (items := makeUniqueItems (map rootFromIndex roots)).
  split; [intros ->; reflexivity|].
  split; [|split].
  - intros Hne [s Hs]. destruct roots as [|i roots'] eqn:Er; [congruence|].
    assert (E : existsb is_system items = true).
    { apply existsb_exists. exists (ISimplex s). split; [|reflexivity].
      now apply list_elem_of_In. }
    rewrite E. reflexivity.
  - intros Hne Hno. destruct roots as [|i roots'] eqn:Er; [congruence|].
    assert (E : existsb is_system items = false).
    { destruct (existsb is_system items) eqn:E; [|reflexivity].
      apply existsb_exists in E as ([] & Hin & Hs); try discriminate.
      exfalso. eapply Hno. apply list_elem_of_In. exact Hin. }
    rewrite E.
    destruct (delete_all items d) as (d' & Ed & Hsx & Ht & Hl & Hc).
    assert (Erun :
      (for_each items (fun r =>
         sx <- get simplex ;; modify (set_simplex (delete r <$> sx))) ;;;
       invalidateFilter uiSliderTREE) d = invalidateFilter uiSliderTREE d').
    { unfold bind at 1. now rewrite Ed. }
    rewrite Erun.
    unfold invalidateFilter, bind, model, get, modify, raise.
    unfold tree. rewrite Ht.
    destruct (tree_model (the_sliderTree (trees d))) as [[fl|m]|];
      cbn; rewrite ?Hsx, ?Hl; auto.
  - unfold comboTreeDelete. rewrite get_bind.
    set (citems := makeUniqueItems _).
    destruct (delete_all citems d) as (d' & Ed & Hsx & Ht & Hl & Hc).
    unfold bind at 1. rewrite Ed.
    unfold invalidateFilter, bind, model, get, modify, raise.
    destruct (tree_model (tree d' uiComboTREE)) as [[fl|m]|]; cbn; exact Hsx.
Qed.

End DeleteProperties.

(** ** The box of the shape name *)

Lemma elements_one (l : list string) (n : string) :
  elements (list_to_set l : gset string) = [n] <->
  n ∈ l /\ Forall (eq n) l.
Proof.
  split.
  - intros E.
    assert (Hin : forall y, y ∈ l <-> y = n).
    { intros y. rewrite <- (elem_of_list_to_set (C := gset string)).
      rewrite <- elem_of_elements, E. apply list_elem_of_singleton. }
    split; [now apply Hin|].
    apply Forall_forall. intros y Hy. symmetry. now apply Hin.
  - intros [Hin Hall].
    assert (E : (list_to_set l : gset string) = {[n]}).
    { apply set_eq. intros y. rewrite elem_of_list_to_set, elem_of_singleton.
      split; [|now intros ->].
      intros Hy. rewrite Forall_forall in Hall. symmetry. now apply Hall. }
    rewrite E. apply elements_singleton.
Qed.

Lemma elements_none (l : list string) :
  elements (list_to_set l : gset string) = [] <-> l = [].
Proof.
  rewrite elements_empty_iff. split.
  - intros E. destruct l as [|x l]; [reflexivity|].
    exfalso. assert (x ∈ (list_to_set (x :: l) : gset string))
      by (apply elem_of_list_to_set; left).
    rewrite E in H. set_solver.
  - now intros ->.
Qed.

Section ShapeNameProperties.
Context `{InterfaceItems}.

(** X17. [loadShapeName] goes by the names of the shapes of the selected
  pairs, not by the pairs: the box is enabled, and shows the name, exactly
  when at least one pair is selected and all selected pairs have a shape of
  the same name; it is disabled and shows "None ..." when no pair is
  selected, and "Multi ..." when two selected pairs differ in the name.
  The signals of the box are not blocked afterwards, and nothing else
  changes.  [setShapeName] goes by the pairs: with several pairs of one
  shape name selected the box is enabled, and an edit is turned down with a
  warning. *)
Theorem loadShapeName_spec (box : LineEdit) (d : Dialog) :
  let pairs := progPairs_of (selected uiSliderTREE d) in
  let names := map (fun pp => shape_name (pp_shape pp)) pairs in
  exists text enabled,
    loadShapeName box d
    = Ok {| le_enabled := enabled; le_blocked := false |}
         (set_shapeNameTXT text d) /\
    (enabled = true <-> exists n, n ∈ names /\ Forall (eq n) names) /\
    (forall n, n ∈ names -> Forall (eq n) names -> text = n) /\
    (names = [] -> text = "None ...") /\
    ((exists n m, n ∈ names /\ m ∈ names /\ n <> m) -> text = "Multi ...") /\
    (length pairs <> 1 ->
     setShapeName (set_shapeNameTXT text d)
     = Ok tt (set_log (log d ++
         [Warning "You can set exactly one shape name at a time this way"])
         (set_shapeNameTXT text d))).
Proof.
  cbv zeta.
  set (pairs := progPairs_of (selected uiSliderTREE d)).
  set (names := map (fun pp => shape_name (pp_shape pp)) pairs).
  assert (Hwarn : forall text, length pairs <> 1 ->
    setShapeName (set_shapeNameTXT text d)
    = Ok tt (set_log (log d ++
        [Warning "You can set exactly one shape name at a time this way"])
        (set_shapeNameTXT text d))).
  { intros text Hlen. unfold setShapeName, getSelectedItems.
    unfold bind at 1 2. unfold selectionModel, get at 1. unfold ret at 1.
    change (match tree_selectionModel (tree (set_shapeNameTXT text d) uiSliderTREE) with
            | Some sm => sm_selection sm | None => [] end)
      with (selected uiSliderTREE d).
    fold pairs. destruct pairs as [|p [|q l]]; try reflexivity.
    cbn in Hlen. congruence. }
  unfold loadShapeName, getSelectedItems.
  unfold bind at 1 2. unfold selectionModel, get at 1. unfold ret at 1.
  fold (selected uiSliderTREE d). fold pairs. fold names.
  clearbody names. clearbody pairs.
  destruct (elements (list_to_set names : gset string)) as [|n [|m l]] eqn:E.
  - apply (proj1 (elements_none names)) in E. exists "None ...", false.
    split; [reflexivity|]. split.
    { split; [discriminate|]. intros (n & Hn & _). rewrite E in Hn. inversion Hn. }
    split; [intros n Hn; rewrite E in Hn; inversion Hn|].
    split; [reflexivity|]. split; [|apply Hwarn].
    intros (n & m & Hn & _). rewrite E in Hn. inversion Hn.
  - apply (proj1 (elements_one names n)) in E as [Hin Hall]. exists n, true.
    split; [reflexivity|]. split; [split; eauto|].
    split.
    { intros k Hk _. rewrite Forall_forall in Hall. now apply Hall. }
    split; [intros En; rewrite En in Hin; inversion Hin|].
    split; [|apply Hwarn].
    intros (a & b & Ha & Hb & Hne). rewrite Forall_forall in Hall.
    exfalso. apply Hne. rewrite <- (Hall a Ha). now apply Hall.
  - exists "Multi ...", false. split; [reflexivity|].
    assert (Hnone : forall k, ~ (k ∈ names /\ Forall (eq k) names)).
    { intros k Hk. apply (proj2 (elements_one names k)) in Hk.
      rewrite E in Hk. discriminate. }
    split; [split; [discriminate|]; intros (k & Hk); exfalso; eapply Hnone; eauto|].
    split; [intros k Hk Hall; exfalso; eapply Hnone; eauto|].
    split; [|split; [reflexivity|apply Hwarn]].
    intros En. rewrite En in E. discriminate.
Qed.

End ShapeNameProperties.

(** ** The theorems at work on the small rig *)

Lemma length_order : strict_weak_order key_lt.
Proof.
  split.
  - intros a b E%Nat.ltb_lt. apply Nat.ltb_ge. lia.
  - intros a b c E1%Nat.ltb_ge E2%Nat.ltb_ge. apply Nat.ltb_ge. lia.
Defined.



Lemma loaded_dialog_wired : wired loaded_dialog.
Proof.
  intros _. split; eexists; (split; [reflexivity|]); cbn;
    repeat split; repeat constructor.
Defined.

(** With "Lock" unchecked the selected slider becomes the requirement, and
  the filter is left alone while no flag is set. *)
Lemma populate_requirements_witness :
  exists m',
    populateComboRequirements loaded_dialog
    = Ok tt (set_model uiComboTREE (Some (FilterProxy m')) loaded_dialog) /\
    requires m' = [slider_jaw] /\ invalidations m' = 0.
Proof.
  destruct (populate_requirements loaded_dialog)
    as (m' & E & Hreq & _ & _ & _ & _ & Hinv).
  exists m'. auto.
Defined.







(** Unloading the rig, and loading the rig under another name and with
  another stack: the dialog then holds the system of the new name, with
  the stack that the rig had. *)
Lemma setSystem_spec_witness :
  simplex (final (setSystem None loaded_dialog)) = None /\
  simplex (final (setSystem (Some (renamed "Body" (face 7))) loaded_dialog))
  = Some (renamed "Body" (face 0)) /\
  last (log (final (setSystem (Some (renamed "Body" (face 7))) loaded_dialog)))
  = Some (Emit simplexLoaded).
Proof.
  destruct (setSystem_spec None loaded_dialog) as [_ Hnone].
  destruct (setSystem_spec (Some (renamed "Body" (face 7))) loaded_dialog)
    as [_ Hsome].
  cbv zeta in Hnone, Hsome.
  destruct (Hnone eq_refl loaded_dialog_wired (fun _ _ => eq_refl))
    as (_ & _ & _ & Hs & _).
  destruct (Hsome eq_refl loaded_dialog_wired (fun _ _ => eq_refl))
    as (_ & _ & Hlast & sx' & Hsx & Heq & _).
  split; [exact Hs|]. split; [|exact Hlast].
  subst sx'. exact Hsx.
Defined.


Lemma loaded_dialog_wired_once : wired_once loaded_dialog.
Proof.
  intros _. split; eexists _, _; split; reflexivity.
Defined.

(** Unloading the rig, loading it again, and loading it once more under
  another stack: no call raises, and the slots are connected once each. *)
Lemma setSystem_sequence_witness :
  let r := for_each [None; Some (face 3); Some (face 5)] setSystem loaded_dialog in
  returned r /\ wired_once (final r).
Proof.
  exact (setSystem_sequence [None; Some (face 3); Some (face 5)] loaded_dialog
           loaded_dialog_wired_once).
Defined.

(** The rig loaded anew while "All" and "Any" are both ticked: the new
  combo filter has both flags set. *)
Lemma setSystem_loaded_witness :
  exists mc,
    tree_model (tree (final (setSystem (Some (face 7)) loaded_dialog)) uiComboTREE)
    = Some (FilterProxy mc) /\
    filterRequiresAll mc = true /\ filterRequiresAny mc = true /\
    filterRequiresOnly mc = false.
Proof.
  pose proof (setSystem_loaded (face 7) loaded_dialog) as Hl. cbv zeta in Hl.
  destruct (Hl eq_refl loaded_dialog_wired)
    as (_ & (mc & Hm & Ha & Hb & Hc) & _ & _ & Hchk & _).
  exists mc. split; [exact Hm|].
  unfold checked, check in Ha, Hb, Hc. rewrite Hchk in Ha, Hb, Hc.
  split; [exact Ha|]. split; [exact Hb|exact Hc].
Defined.

Lemma unloaded_queries_raise_witness :
  let d' := final (setSystem None loaded_dialog) in
  isSliderIsolate loaded_dialog = Ok false loaded_dialog /\
  isSliderIsolate d' = Raise AttributeError d'.
Proof.
  cbv zeta. split; [reflexivity|].
  destruct (unloaded_queries_raise loaded_dialog ltac:(discriminate)
              loaded_dialog_wired) as (_ & Hs & _).
  exact Hs.
Defined.

(** An undo that brings back the rig as it was under another stack: the
  stack of the loaded rig stays. *)
Lemma handleUndo_witness :
  option_map sx_stack (simplex (final (handleUndo (Some (face 9)) loaded_dialog)))
  = Some (StackRef 0).
Proof.
  destruct (handleUndo_spec (Some (face 9)) loaded_dialog) as (_ & _ & Hundo).
  destruct (Hundo (face 0) (face 9) eq_refl eq_refl eq_refl loaded_dialog_wired)
    as (_ & -> & _).
  reflexivity.
Defined.


Lemma detached_dialog_wired : wired detached_dialog.
Proof.
  intros _. split; eexists; (split; [reflexivity|]); cbn;
    repeat split; repeat constructor.
Defined.

Lemma renameSystem_without_entry_witness :
  simplex detached_dialog = Some (face 0) /\
  simplex (final (renameSystem "Head" true detached_dialog)) = None.
Proof.
  split; [reflexivity|].
  destruct (renameSystem_without_entry "Head" detached_dialog (face 0) eq_refl
              ltac:(eexists; reflexivity) detached_dialog_wired eq_refl)
    as (_ & Hs & _).
  exact Hs.
Defined.

(** A second system of the name that the box holds already: the box then
  holds the name twice.  On the loaded rig, a new system "Body" takes the
  place of the rig, while a new system "Face", which the example takes to
  equal the rig, leaves the rig in place. *)
Lemma newSystem_adds_entry_witness :
  uiCurrentSystemCBOX (final (newSystem "Face" true
      (final (setSystem None loaded_dialog)))) =
  {| cbox_items := ["Face"; "Face"]; cbox_currentIndex := 1;
     cbox_blocked := false |} /\
  simplex (final (newSystem "Body" true loaded_dialog))
  = Some (empty_system "Body") /\
  simplex (final (newSystem "Face" true loaded_dialog)) = Some (face 0).
Proof.
  pose proof (newSystem_adds_entry "Face" "head"
                (final (setSystem None loaded_dialog))) as Hnew.
  pose proof (newSystem_adds_entry "Body" "head" loaded_dialog) as Hbody.
  pose proof (newSystem_adds_entry "Face" "head" loaded_dialog) as Hface.
  cbv zeta in Hnew, Hbody, Hface.
  destruct (Hnew eq_refl ltac:(eexists; reflexivity) eq_refl
              ltac:(intros Hne; exfalso; apply Hne; reflexivity))
    as (_ & Hbox & _).
  destruct (Hbody eq_refl ltac:(eexists; reflexivity) eq_refl
              loaded_dialog_wired) as (_ & _ & Hb).
  destruct (Hface eq_refl ltac:(eexists; reflexivity) eq_refl
              loaded_dialog_wired) as (_ & _ & Hf).
  split; [exact Hbox|]. split; [exact Hb|exact Hf].
Defined.

(** A body that raises inside the block on a box that was blocked
  already: the exception comes out, and the box is unblocked. *)
Lemma signalsBlocked_releases_witness :
  let d := set_check uiComboDependAllCHK
             {| cb_checked := true; cb_blocked := true |} loaded_dialog in
  let r := signalsBlocked (CheckBoxOf uiComboDependAllCHK)
             (setChecked uiComboDependAllCHK false ;;; @raise unit KeyError) d in
  blocked (CheckBoxOf uiComboDependAllCHK) d = true /\
  blocked (CheckBoxOf uiComboDependAllCHK) (final r) = false /\
  ~ returned r.
Proof.
  cbv zeta. split; [reflexivity|].
  destruct (signalsBlocked_releases (CheckBoxOf uiComboDependAllCHK)
              (setChecked uiComboDependAllCHK false ;;; @raise unit KeyError)
              (set_check uiComboDependAllCHK
                 {| cb_checked := true; cb_blocked := true |} loaded_dialog))
    as [Hrel _].
  destruct (Hrel I (fun _ _ => I)) as (_ & Hb & _).
  split; [exact Hb|]. intros Hret. vm_compute in Hret. exact Hret.
Defined.


(** "smile" and "frown" have keys of the same length: they stay in the
  order of the rows, before the longer name. *)
Lemma extraction_stable_witness :
  extraction_pairs tied_rows =
    [pair_of "smile" shape_smile; pair_of "frown" shape_frown;
     pair_of "jawOpen" shape_jaw] /\
  List.filter (same_key (pair_of "smile" shape_smile)) (extraction_pairs tied_rows)
  = [pair_of "smile" shape_smile; pair_of "frown" shape_frown].
Proof.
  split; [reflexivity|].
  rewrite (extraction_stable tied_rows (pair_of "smile" shape_smile) length_order).
  reflexivity.
Defined.

Lemma importObjFolder_refuses_witness :
  importObjFolder (fun _ => false) true ["notes.txt"; "rig.json"] "/objs"
    loaded_dialog
  = Ok None (set_log [Warning "Folder does not contain any .obj files"]
               loaded_dialog).
Proof.
  destruct (importObjFolder_refuses (fun _ => false) ["notes.txt"; "rig.json"]
              "/objs" loaded_dialog) as (_ & Hnone & _).
  apply Hnone. intros i Hi.
  repeat (apply elem_of_cons in Hi as [->|Hi]; [reflexivity|]).
  inversion Hi.
Defined.

(** The rest pairs of the two sliders are selected: the box shows "Rest"
  and can be edited, and the edit is turned down. *)
Lemma loadShapeName_witness :
  loadShapeName {| le_enabled := false; le_blocked := false |} rest_selected
  = Ok {| le_enabled := true; le_blocked := false |}
       (set_shapeNameTXT "Rest" rest_selected) /\
  log (final (setShapeName (set_shapeNameTXT "Rest" rest_selected)))
  = [Warning "You can set exactly one shape name at a time this way"].
Proof.
  destruct (loadShapeName_spec {| le_enabled := false; le_blocked := false |}
              rest_selected) as (text & enabled & E & _ & Htext & _ & _ & Hset).
  assert (Ht : text = "Rest").
  { apply Htext; [left|repeat constructor]. }
  subst text. rewrite (Hset ltac:(discriminate)).
  split; [|reflexivity].
  rewrite E. f_equal.
  enough (enabled = true) as -> by reflexivity.
  vm_compute in E. now injection E.
Defined.
